(** * Parallel batch-dispatch fingerprint transformer

    A shallow embedding of [FingerprintTransformer] and
    [FingerprintGeneratorMixin] (base.py), of the Avalon computation unit
    (skfp/fingerprints/avalon.py) and of [plot_results]
    (benchmarking/benchmark.py), followed by the properties of
    [transform], [_validate_input], [fit], [fit_transform],
    [_generate_fingerprints] and of the files the plots are saved to.

    Python values are modelled as follows.
    - [int] is [Z]; [//] is floor division, which is [Z.div].
    - a Python list is a [list]; [len], slicing and [range] are written
      out with Python's clamping rules.
    - an exception is a value of [exn]; code that may raise returns a
      [result].
    - every call of the computation unit is recorded in a log, so that
      "what was dispatched" is part of what [transform] returns.
    - RDKit is an external library: its molecule type and the functions
      the source calls are the fields of the class [RDKit].
    - numpy's [ndarray] is a shape with a row-major buffer; scipy's
      [csr_array] is a shape with, per row, the stored (column, value)
      pairs. *)

From Stdlib Require Import Ascii.
From Stdlib Require Import String.
From Stdlib Require DecimalString.
From Stdlib Require Import List ZArith Lia Bool Arith.
Import ListNotations.

Local Open Scope string_scope.
Local Open Scope list_scope.
Local Open Scope Z_scope.

(** ** Exceptions and results *)

Record exn : Type := mk_exn { exn_class : string; exn_msg : string }.

Definition ValueError (msg : string) : exn := mk_exn "ValueError" msg.
Definition IndexError (msg : string) : exn := mk_exn "IndexError" msg.
Definition TypeError (msg : string) : exn := mk_exn "TypeError" msg.
Definition ZeroDivisionError (msg : string) : exn :=
  mk_exn "ZeroDivisionError" msg.

Inductive result (A : Type) : Type :=
| OK (a : A)
| Raise (e : exn).
Arguments OK {A} a.
Arguments Raise {A} e.

Definition rbind {A B : Type} (r : result A) (f : A -> result B) : result B :=
  match r with
  | OK a => f a
  | Raise e => Raise e
  end.

(** [[f(x) for x in l]] where [f] may raise: the first failure, in list
    order, is the one that propagates. *)
Fixpoint rmap {A B : Type} (f : A -> result B) (l : list A)
  : result (list B) :=
  match l with
  | [] => OK []
  | x :: l' => rbind (f x) (fun y => rbind (rmap f l') (fun ys => OK (y :: ys)))
  end.

(** ** RDKit, the external chemistry library *)

Class RDKit : Type := {
  (** [rdkit.Chem.rdchem.Mol], an opaque handle. *)
  Mol : Type;
  (** [MolFromSmiles(s)]: a handle, or Python's [None] when [s] does not
      parse. *)
  MolFromSmiles : string -> option Mol;
  (** [GetAvalonFP(x, nBits=n)] as the sequence of its bits. *)
  GetAvalonFP : Mol -> nat -> list Z;
  (** [GetAvalonCountFP(x, nBits=n).ToList()]. *)
  GetAvalonCountFP : Mol -> nat -> list Z;
  (** Both vectors have exactly [nBits] entries. *)
  GetAvalonFP_length :
    forall m n, length (GetAvalonFP m n) = n;
  GetAvalonCountFP_length :
    forall m n, length (GetAvalonCountFP m n) = n
}.

(** ** Python objects that can occur in an input collection

    [cls = None] means that [type(x)] is exactly [str] (resp. [Mol]);
    [cls = Some name] means that [type(x)] is the class [name], a strict
    subclass of [str] (resp. of [Mol]). *)
Inductive pyobj `{RDKit} : Type :=
| py_str (cls : option string) (s : string)
| py_Mol (cls : option string) (m : Mol)
| py_None
| py_int (z : Z).

Section Objects.
Context `{RDKit}.

(** [isinstance(x, Mol)] *)
Definition isinstance_Mol (x : pyobj) : bool :=
  match x with
  | py_Mol _ _ => true
  | _ => false
  end.

(** [isinstance(x, str)] *)
Definition isinstance_str (x : pyobj) : bool :=
  match x with
  | py_str _ _ => true
  | _ => false
  end.

(** [type(x) == str] *)
Definition type_eq_str (x : pyobj) : bool :=
  match x with
  | py_str None _ => true
  | _ => false
  end.

(** The value [MolFromSmiles] hands back to Python. *)
Definition handle (o : option Mol) : pyobj :=
  match o with
  | Some m => py_Mol None m
  | None => py_None
  end.

(** [x is None] *)
Definition is_None (x : pyobj) : bool :=
  match x with
  | py_None => true
  | _ => false
  end.
End Objects.

(** ** Lists, indices, slices, ranges *)

Definition len {A : Type} (l : list A) : Z := Z.of_nat (length l).

(** Python's clamping of a slice bound against a sequence of length [n]. *)
Definition clamp (n i : Z) : Z :=
  if i <? 0 then Z.max (i + n) 0 else Z.min i n.

(** [l[i:j]] *)
Definition slice {A : Type} (l : list A) (i j : Z) : list A :=
  let a := clamp (len l) i in
  let b := clamp (len l) j in
  firstn (Z.to_nat (b - a)) (skipn (Z.to_nat a) l).

(** [l[i]] *)
Definition getitem {A : Type} (l : list A) (i : Z) : result A :=
  let k := if i <? 0 then i + len l else i in
  if k <? 0 then Raise (IndexError "list index out of range")
  else match nth_error l (Z.to_nat k) with
       | Some x => OK x
       | None => Raise (IndexError "list index out of range")
       end.

(** [a // b] *)
Definition floordiv (a b : Z) : result Z :=
  if b =? 0 then Raise (ZeroDivisionError "integer division or modulo by zero")
  else OK (a / b).

(** [list(range(start, stop, step))]. The number of elements is the one
    CPython computes; a zero step raises. *)
Definition range (start stop step : Z) : result (list Z) :=
  if step =? 0 then Raise (ValueError "range() arg 3 must not be zero")
  else
    let n :=
      if 0 <? step
      then (if start <? stop then (stop - start - 1) / step + 1 else 0)
      else (if stop <? start then (start - stop - 1) / (- step) + 1 else 0) in
    OK (map (fun k => start + Z.of_nat k * step) (seq 0 (Z.to_nat n))).

(** ** numpy and scipy.sparse *)

(** A C-contiguous integer [ndarray]. *)
Record ndarray : Type := mk_ndarray {
  shape : list nat;
  data : list Z
}.

(** A sparse row: the stored entries as (column, value), by column. *)
Definition sparse_row : Type := list (nat * Z).

Record csr_array : Type := mk_csr {
  sp_nrows : nat;
  sp_ncols : nat;
  sp_rows : list sparse_row
}.

(** What a computation unit returns. *)
Inductive array : Type :=
| Dense (a : ndarray)
| Sparse (m : csr_array).

(** [isinstance(r, sparse.csr_array)] *)
Definition isinstance_csr_array (r : array) : bool :=
  match r with
  | Sparse _ => true
  | Dense _ => false
  end.

(** Do all rows have as many entries as the first one? *)
Definition homogeneous (rows : list (list Z)) : bool :=
  match rows with
  | [] => true
  | r :: _ => forallb (fun r' => (length r' =? length r)%nat) rows
  end.

(** [np.array(rows)] for a list of integer sequences: an empty list makes
    a one-dimensional array of shape (0,), rows of one length make a
    two-dimensional array, rows of different lengths raise. *)
Definition np_array (rows : list (list Z)) : result ndarray :=
  match rows with
  | [] => OK (mk_ndarray [0%nat] [])
  | r :: _ =>
      if homogeneous rows
      then OK (mk_ndarray [length rows; length r] (concat rows))
      else Raise (ValueError "setting an array element with a sequence. The requested array has an inhomogeneous shape")
  end.

(** The stored entries of a dense row. *)
Definition to_sparse_row (r : list Z) : sparse_row :=
  filter (fun cv => negb (snd cv =? 0))
         (combine (seq 0 (length r)) r).

(** [csr_array(rows)] for a list of integer sequences; an empty list is
    read as one row with no columns. *)
Definition csr_array_of (rows : list (list Z)) : result csr_array :=
  match rows with
  | [] => OK (mk_csr 1 0 [[]])
  | r :: _ =>
      if homogeneous rows
      then OK (mk_csr (length rows) (length r)
                      (map to_sparse_row rows))
      else Raise (ValueError "setting an array element with a sequence. The requested array has an inhomogeneous shape")
  end.

Definition list_nat_eqb (a b : list nat) : bool :=
  if list_eq_dec Nat.eq_dec a b then true else false.

(** How [np.concatenate] sees one of its arguments: a sparse object is
    not an array, numpy wraps it as a zero-dimensional object array. *)
Definition asarray (r : array) : ndarray :=
  match r with
  | Dense a => a
  | Sparse _ => mk_ndarray [] []
  end.

(** [np.concatenate(results)], along axis 0. *)
Definition np_concatenate (results : list array) : result array :=
  match map asarray results with
  | [] => Raise (ValueError "need at least one array to concatenate")
  | a :: rest =>
      match shape a with
      | [] => Raise (ValueError "zero-dimensional arrays cannot be concatenated")
      | _ :: inner =>
          if negb (forallb (fun b => (length (shape b)
                                      =? length (shape a))%nat) rest)
          then Raise (ValueError "all the input arrays must have same number of dimensions")
          else if negb (forallb (fun b => list_nat_eqb (tl (shape b)) inner)
                                rest)
          then Raise (ValueError "all the input array dimensions except for the concatenation axis must match exactly")
          else OK (Dense (mk_ndarray
                            (list_sum (map (fun b => hd 0%nat (shape b))
                                          (a :: rest)) :: inner)
                            (concat (map data (a :: rest)))))
      end
  end.

(** The rows of a row-major buffer with [k] columns. *)
Fixpoint rows_of (n k : nat) (buf : list Z) : list (list Z) :=
  match n with
  | O => []
  | S n' => firstn k buf :: rows_of n' k (skipn k buf)
  end.

(** How [sparse.vstack] reads one block: a sparse block as it is, a
    two-dimensional dense block by its stored entries, a one-dimensional
    dense block as a single row. *)
Definition as_block (r : array) : result csr_array :=
  match r with
  | Sparse m => OK m
  | Dense a =>
      match shape a with
      | [n; k] => OK (mk_csr n k (map to_sparse_row (rows_of n k (data a))))
      | [k] => OK (mk_csr 1 k [to_sparse_row (data a)])
      | _ => Raise (ValueError "blocks must be 2-D")
      end
  end.

(** [sparse.vstack(results)] *)
Definition sparse_vstack (results : list array) : result array :=
  rbind (rmap as_block results) (fun blocks =>
    match blocks with
    | [] => Raise (ValueError "blocks must be 2-D")
    | b :: rest =>
        if negb (forallb (fun b' => (sp_ncols b' =? sp_ncols b)%nat) rest)
        then Raise (ValueError "Mismatching dimensions along axis 1")
        else OK (Sparse (mk_csr (list_sum (map sp_nrows blocks))
                                (sp_ncols b)
                                (concat (map sp_rows blocks))))
    end).

(** A sparse row of [k] columns written out in full. *)
Definition dense_of_sparse_row (k : nat) (r : sparse_row) : list Z :=
  map (fun c => match find (fun cv => (fst cv =? c)%nat) r with
                | Some cv => snd cv
                | None => 0
                end) (seq 0 k).

(** Row [i] of an output matrix, as the full sequence of its entries. *)
Definition row (M : array) (i : nat) : option (list Z) :=
  match M with
  | Dense a =>
      match shape a with
      | [n; k] => if (i <? n)%nat
                  then Some (firstn k (skipn (i * k) (data a)))
                  else None
      | _ => None
      end
  | Sparse m =>
      if (i <? sp_nrows m)%nat
      then option_map (dense_of_sparse_row (sp_ncols m))
                      (nth_error (sp_rows m) i)
      else None
  end.

(** Number of rows, number of columns (when the output has two axes). *)
Definition nrows (M : array) : option nat :=
  match M with
  | Dense a => match shape a with [n; _] => Some n | _ => None end
  | Sparse m => Some (sp_nrows m)
  end.

Definition ncols (M : array) : option nat :=
  match M with
  | Dense a => match shape a with [_; k] => Some k | _ => None end
  | Sparse m => Some (sp_ncols m)
  end.

(** ** Effects: the log of computation-unit calls

    A [run] is what executing a piece of [transform] leaves behind: the
    arguments of the calls of [_calculate_fingerprint] made so far, in
    order, and the value or the exception. Nothing is logged after an
    exception. *)
Section Effects.
Context `{RDKit}.

Record run (A : Type) : Type := mk_run {
  calls : list (list pyobj);
  outcome : result A
}.
Arguments mk_run {A} calls outcome.
Arguments calls {A} r.
Arguments outcome {A} r.

Definition ret {A : Type} (a : A) : run A := mk_run [] (OK a).

Definition lift {A : Type} (r : result A) : run A := mk_run [] r.

Definition bind {A B : Type} (m : run A) (f : A -> run B) : run B :=
  match outcome m with
  | OK a => let r := f a in mk_run (calls m ++ calls r) (outcome r)
  | Raise e => mk_run (calls m) (Raise e)
  end.
End Effects.

Arguments mk_run {_ A} calls outcome.
Arguments calls {_ A} r.
Arguments outcome {_ A} r.

Notation "x <- m ;; k" := (bind m (fun x => k))
  (at level 61, m at next level, right associativity).

(** ** FingerprintTransformer (base.py) *)

(** The abstract base class: an instance carries its effective worker
    count and implements [_calculate_fingerprint]. *)
Class FingerprintTransformer `{RDKit} (Self : Type) : Type := {
  n_jobs : Self -> Z;
  _calculate_fingerprint : Self -> list pyobj -> result array
}.

Section Transformer.
Context `{RDKit} {Self : Type} `{!FingerprintTransformer Self}.

(** One call of [self._calculate_fingerprint(X_sub)]. *)
Definition invoke (self : Self) (X_sub : list pyobj) : run array :=
  mk_run [X_sub] (_calculate_fingerprint self X_sub).

(** [Parallel(n_jobs=w)(tasks)]: joblib hands back the results in task
    order. The tasks are run here one after the other, in that order,
    up to the first one that raises. *)
Fixpoint Parallel {A : Type} (w : Z) (tasks : list (run A))
  : run (list A) :=
  match tasks with
  | [] => ret []
  | t :: ts => r <- t ;; rs <- Parallel w ts ;; ret (r :: rs)
  end.

(** [fit(self, X, y=None)] *)
Definition fit (self : Self) (X : list pyobj) (y : option (list Z))
  : Self := self.

(** [transform(self, X)] *)
Definition transform (self : Self) (X : list pyobj) : run array :=
  if n_jobs self =? 1 then invoke self X
  else
    q <- lift (floordiv (len X) (n_jobs self)) ;;
    let batch_size := Z.max q 1 in
    idx <- lift (range 0 (len X) batch_size) ;;
    let args := map (fun i => slice X i (i + batch_size)) idx in
    results <- Parallel (n_jobs self) (map (invoke self) args) ;;
    r0 <- lift (getitem results 0) ;;
    if isinstance_csr_array r0
    then lift (sparse_vstack results)
    else lift (np_concatenate results).

(** The last four lines of [transform] as a function of [results]. *)
Definition aggregate (results : list array) : result array :=
  rbind (getitem results 0) (fun r0 =>
    if isinstance_csr_array r0
    then sparse_vstack results
    else np_concatenate results).

(** [fit_transform(self, X, y=None)] *)
Definition fit_transform (self : Self) (X : list pyobj)
  (y : option (list Z)) : run array :=
  transform self X.
End Transformer.

Section Validation.
Context `{RDKit}.

(** [_validate_input(self, X)]; [self] is not used. *)
Definition _validate_input (X : list pyobj) : result (list pyobj) :=
  if negb (forallb
             (fun molecule => isinstance_Mol molecule || type_eq_str molecule)
             X)
  then Raise (ValueError
                "Passed value is neither rdkit.Chem.rdChem.Mol nor SMILES")
  else OK (map (fun x => match x with
                         | py_str None s => handle (MolFromSmiles s)
                         | _ => x
                         end) X).

(** Modelled from the spec: [skfp.validators.ensure_mols], which
    avalon.py imports, is not among the sources. Section 4.1: every
    entry that is a string is parsed into a handle, and a failed parse
    fails with a ValidationError naming the entry; a handle is taken as
    it is; any other entry fails with a TypeError-kind error. *)
Definition ensure_mol (x : pyobj) : result Mol :=
  match x with
  | py_str _ s =>
      match MolFromSmiles s with
      | Some m => OK m
      | None => Raise (mk_exn "ValidationError" s)
      end
  | py_Mol _ m => OK m
  | _ => Raise (TypeError "entry is neither a string nor a molecule")
  end.

(** Modelled from the spec: [ensure_mols] itself, the validator of
    section 4.1 applied entry by entry, in order. *)
Definition ensure_mols (X : list pyobj) : result (list Mol) :=
  rmap ensure_mol X.
End Validation.

(** ** AvalonFingerprint (skfp/fingerprints/avalon.py) *)

Record AvalonFingerprint : Type := mk_Avalon {
  fp_size : nat;
  count : bool;
  sparse : bool;
  (** the effective worker count the base class stores *)
  avalon_n_jobs : Z
}.

Section Avalon.
Context `{RDKit}.

Definition Avalon_calculate_fingerprint (self : AvalonFingerprint)
  (X : list pyobj) : result array :=
  rbind (ensure_mols X) (fun X =>
    let X :=
      if count self
      then map (fun x => GetAvalonCountFP x (fp_size self)) X
      else map (fun x => GetAvalonFP x (fp_size self)) X in
    if sparse self
    then rbind (csr_array_of X) (fun m => OK (Sparse m))
    else rbind (np_array X) (fun a => OK (Dense a))).

#[export] Instance Avalon_transformer
  : FingerprintTransformer AvalonFingerprint := {
  n_jobs := avalon_n_jobs;
  _calculate_fingerprint := Avalon_calculate_fingerprint
}.
End Avalon.

(** ** Row-wise computation units

    The contract of section 4.2 of the specification, as it shows in the
    source: every unit of the repository maps a per-entry function over
    its chunk and hands the rows to [csr_array] or to [np.array]
    ([AvalonFingerprint._calculate_fingerprint],
    [FingerprintGeneratorMixin._generate_fingerprints]). *)
Definition build (sp : bool) (rows : list (list Z)) : result array :=
  if sp
  then rbind (csr_array_of rows) (fun m => OK (Sparse m))
  else rbind (np_array rows) (fun a => OK (Dense a)).

(** [self]'s unit is row-wise for the per-entry function [f], the column
    count [k] and the [sparse] option [sp]. *)
Definition rowwise `{RDKit} {Self : Type} `{!FingerprintTransformer Self}
  (self : Self) (f : pyobj -> result (list Z)) (k : nat) (sp : bool) : Prop :=
  (forall x r, f x = OK r -> length r = k)
  /\ (forall X, _calculate_fingerprint self X = rbind (rmap f X) (build sp)).

(** What [build sp] makes of at least one row of [k] entries. *)
Definition assemble (sp : bool) (k : nat) (rows : list (list Z)) : array :=
  if sp
  then Sparse (mk_csr (length rows) k (map to_sparse_row rows))
  else Dense (mk_ndarray [length rows; k] (concat rows)).

(** ** The chunk list in index arithmetic

    [chunks b X] is [[X[i : i + b] for i in range(0, len(X), b)]] for a
    batch size [b >= 1], with the bounds on naturals. *)
Definition num_chunks (N b : nat) : nat :=
  if (N =? 0)%nat then 0%nat else ((N - 1) / b + 1)%nat.

Definition chunks {A : Type} (b : nat) (X : list A) : list (list A) :=
  map (fun k => firstn b (skipn (k * b) X))
      (seq 0 (num_chunks (length X) b)).

(** The fingerprint of one entry under the Avalon parameters. *)
Definition Avalon_entry_fp `{RDKit} (self : AvalonFingerprint) (x : pyobj)
  : result (list Z) :=
  rbind (ensure_mol x) (fun m =>
    OK (if count self then GetAvalonCountFP m (fp_size self)
        else GetAvalonFP m (fp_size self))).

(** [self] with another worker count. *)
Definition with_n_jobs (self : AvalonFingerprint) (w : Z)
  : AvalonFingerprint :=
  mk_Avalon (fp_size self) (count self) (sparse self) w.

(** ** FingerprintGeneratorMixin (base.py) *)

Definition AssertionError (msg : string) : exn := mk_exn "AssertionError" msg.
Definition ArgumentError (msg : string) : exn := mk_exn "ArgumentError" msg.

(** An RDKit fingerprint generator, as [_get_generator] returns it: its
    two vector methods, and the vector length it was built with. *)
Record FingerprintGenerator `{RDKit} : Type := mk_generator {
  GetFingerprintAsNumPy : Mol -> list Z;
  GetCountFingerprintAsNumPy : Mol -> list Z;
  fpSize : nat;
  GetFingerprintAsNumPy_length :
    forall m, length (GetFingerprintAsNumPy m) = fpSize;
  GetCountFingerprintAsNumPy_length :
    forall m, length (GetCountFingerprintAsNumPy m) = fpSize
}.

(** A generator method called from Python: the binding takes a [Mol]
    (or an instance of a subclass) and refuses anything else, [None]
    included. *)
Definition call_with_mol `{RDKit} (method : Mol -> list Z) (x : pyobj)
  : result (list Z) :=
  match x with
  | py_Mol _ m => OK (method m)
  | _ => Raise (ArgumentError
                  "Python argument types did not match C++ signature")
  end.

(** The attributes [__init__] sets. [fp_generator_kwargs] is a dict from
    keyword to value; the source only ever stores the empty one. *)
Record GeneratorAttributes : Type := mk_attributes {
  result_vector_type : string;
  fp_generator_kwargs : list (string * Z);
  sparse_output : bool
}.

(** [FingerprintGeneratorMixin.__init__(self, fingerprint_type="bit",
    sparse=False)], assertions enabled. *)
Definition FingerprintGeneratorMixin_init (fingerprint_type : string)
  (sparse : bool) : result GeneratorAttributes :=
  if existsb (String.eqb fingerprint_type) ["bit"; "count"]
  then OK (mk_attributes fingerprint_type [] sparse)
  else Raise (AssertionError "").

(** The mixin: an instance carries the attributes and implements
    [_get_generator]. *)
Class FingerprintGeneratorMixin `{RDKit} (Self : Type) : Type := {
  attributes : Self -> GeneratorAttributes;
  _get_generator : Self -> FingerprintGenerator
}.

(** [_generate_fingerprints(self, X)] *)
Definition _generate_fingerprints `{RDKit} {Self : Type}
  `{!FingerprintGeneratorMixin Self} (self : Self) (X : list pyobj)
  : result array :=
  let fp_generator := _get_generator self in
  rbind (if String.eqb (result_vector_type (attributes self)) "bit"
         then rmap (call_with_mol (GetFingerprintAsNumPy fp_generator)) X
         else rmap (call_with_mol (GetCountFingerprintAsNumPy fp_generator))
                   X)
    (fun X =>
       if sparse_output (attributes self)
       then rbind (csr_array_of X) (fun m => OK (Sparse m))
       else rbind (np_array X) (fun a => OK (Dense a))).

(** The generator method that [_generate_fingerprints] calls on every
    entry. *)
Definition selected_method `{RDKit} {Self : Type}
  `{!FingerprintGeneratorMixin Self} (self : Self) : Mol -> list Z :=
  if String.eqb (result_vector_type (attributes self)) "bit"
  then GetFingerprintAsNumPy (_get_generator self)
  else GetCountFingerprintAsNumPy (_get_generator self).

(** ** plot_results (benchmarking/benchmark.py) *)

Definition PLOT_DIR : string := "./benchmark_times_plotted".

(** [s.replace(old, new)] for one-character [old] and [new]. *)
Fixpoint replace_char (old new : Ascii.ascii) (s : string) : string :=
  match s with
  | EmptyString => EmptyString
  | String c s' =>
      String (if Ascii.eqb c old then new else c) (replace_char old new s')
  end.

(** [str(n)] for a natural number. *)
Definition str_of_nat (n : nat) : string :=
  DecimalString.NilEmpty.string_of_uint (Nat.to_uint n).

(** [enumerate(l)] *)
Definition enumerate {A : Type} (l : list A) : list (nat * A) :=
  combine (seq 0 (length l)) l.

(** The matplotlib calls [plot_results] makes, in order. The abscissae
    and the bounds of [set_xlim] are floating-point values and are not
    part of the record. *)
Inductive mpl_call (Y : Type) : Type :=
| rcParams_font_size (size : Z)
| plt_figure (width height : Z)
| fig_add_subplot
| ax_set_title (title : string)
| ax_plot (y : Y) (label : string)
| ax_set_ylabel (text : string)
| ax_set_xlabel (text : string)
| ax_set_xlim
| ax_set_ylim (bottom : Z)
| plt_legend (loc fontsize : string)
| plt_savefig (fname : string)
| plt_show.
Arguments rcParams_font_size {Y} size.
Arguments plt_figure {Y} width height.
Arguments fig_add_subplot {Y}.
Arguments ax_set_title {Y} title.
Arguments ax_plot {Y} y label.
Arguments ax_set_ylabel {Y} text.
Arguments ax_set_xlabel {Y} text.
Arguments ax_set_xlim {Y}.
Arguments ax_set_ylim {Y} bottom.
Arguments plt_legend {Y} loc fontsize.
Arguments plt_savefig {Y} fname.
Arguments plt_show {Y}.

(** Truth value of an optional flag: [None] and [False] are falsy. *)
Definition truthy (flag : option bool) : bool :=
  match flag with
  | Some true => true
  | _ => false
  end.

(** [plot_results(n_molecules, y_emf, y_rdkit, title, sparse, count,
    save)] *)
Definition plot_results {Y : Type} (n_molecules : Z) (y_emf : list Y)
  (y_rdkit : Y) (title : string) (sparse count : option bool) (save : bool)
  : list (mpl_call Y) :=
  let title := if truthy sparse then (title ++ " sparse")%string else title in
  let title :=
    if truthy count then (title ++ " count")%string
    else match count with
         | Some _ => (title ++ " bit")%string
         | None => title
         end in
  [rcParams_font_size 20; plt_figure 15 10; fig_add_subplot;
   ax_set_title title]
  ++ map (fun iy => ax_plot (snd iy)
                      ("emf time - " ++ str_of_nat (fst iy + 1))%string)
         (enumerate y_emf)
  ++ [ax_plot y_rdkit "rdkit time";
      ax_set_ylabel "Time of computation (s)";
      ax_set_xlabel "Number of fingerprints";
      ax_set_xlim; ax_set_ylim 0;
      plt_legend "upper left" "8"]
  ++ [if save
      then plt_savefig (PLOT_DIR ++ "/"
                        ++ replace_char " "%char "_"%char title
                        ++ ".png")%string
      else plt_show].

(** Does the character occur in the string? *)
Fixpoint occurs (c : ascii) (s : string) : bool :=
  match s with
  | EmptyString => false
  | String c' s' => Ascii.eqb c' c || occurs c s'
  end.

(** The title [plot_results] ends up with, in one expression. *)
Definition full_title (title : string) (sparse count : option bool)
  : string :=
  ((if truthy sparse then title ++ " sparse" else title)
   ++ match count with
      | Some true => " count"
      | Some false => " bit"
      | None => ""
      end)%string.

(** ** Concrete instances used to run the definitions *)

Module Demo.

(** A stand-in parser: the four SMILES strings of the docstrings parse,
    every other string does not. *)
Definition parse (s : string) : option string :=
  if existsb (String.eqb s) ["O"; "CC"; "[C-]#N"; "CC=O"]
  then Some s else None.

(** Stand-in fingerprints of [n] entries. *)
Definition bits (m : string) (n : nat) : list Z :=
  map (fun k => if (k mod (String.length m + 1) =? 0)%nat then 1 else 0)
      (seq 0 n).

Definition counts (m : string) (n : nat) : list Z :=
  map (fun k => if (k mod 2 =? 0)%nat then Z.of_nat (String.length m) else 0)
      (seq 0 n).

Lemma bits_length : forall m n, length (bits m n) = n.
Proof. intros; unfold bits; now rewrite length_map, length_seq. Qed.

Lemma counts_length : forall m n, length (counts m n) = n.
Proof. intros; unfold counts; now rewrite length_map, length_seq. Qed.

#[export] Instance rdkit : RDKit := {
  Mol := string;
  MolFromSmiles := parse;
  GetAvalonFP := bits;
  GetAvalonCountFP := counts;
  GetAvalonFP_length := bits_length;
  GetAvalonCountFP_length := counts_length
}.

Definition smiles : list pyobj :=
  [py_str None "O"; py_str None "CC"; py_str None "[C-]#N";
   py_str None "CC=O"].

Definition five : list pyobj := smiles ++ [py_str None "CC"].

Definition invalid : list pyobj := [py_str None "not_a_valid_structure!!"].

Definition mixed : list pyobj :=
  [py_str None "CC"; py_str None "not_a_valid_structure!!"; py_Mol None "O"].

Definition subclassed : list pyobj :=
  [py_str None "O"; py_str (Some "Smiles") "CC"].

(** A stand-in generator of vectors of eight entries, and a mixin
    instance around it. *)
Definition generator : FingerprintGenerator :=
  mk_generator _ (fun m => bits m 8) (fun m => counts m 8) 8
    (fun m => bits_length m 8) (fun m => counts_length m 8).

Record Generated : Type := mk_Generated {
  gen_attributes : GeneratorAttributes
}.

#[export] Instance Generated_mixin : FingerprintGeneratorMixin Generated := {
  attributes := gen_attributes;
  _get_generator := fun _ => generator
}.

Definition molecules : list pyobj :=
  [py_Mol None "O"; py_Mol None "CC"; py_Mol (Some "PropertyMol") "CC=O"].

(** A transformer that carries a [sparse] option but whose unit hands
    back a [csr_array] whatever the option says. *)
Record Unheeding : Type := mk_Unheeding {
  uh_sparse : bool;
  uh_n_jobs : Z
}.

#[export] Instance Unheeding_transformer
  : FingerprintTransformer Unheeding := {
  n_jobs := uh_n_jobs;
  _calculate_fingerprint := fun _ X =>
    rbind (csr_array_of (map (fun _ => [1; 0]) X)) (fun m => OK (Sparse m))
}.

(** A transformer whose unit breaks shape stability: it makes as many
    columns as its chunk has entries. *)
Record Unstable : Type := mk_Unstable {
  us_sparse : bool;
  us_n_jobs : Z
}.

#[export] Instance Unstable_transformer
  : FingerprintTransformer Unstable := {
  n_jobs := us_n_jobs;
  _calculate_fingerprint := fun self X =>
    build (us_sparse self) (map (fun _ => repeat 1 (length X)) X)
}.

End Demo.

(** The stand-in library is only a last resort of instance search. *)
#[local] Existing Instance Demo.rdkit | 100.
#[local] Existing Instance Demo.Unheeding_transformer.
#[local] Existing Instance Demo.Unstable_transformer.
#[local] Existing Instance Demo.Generated_mixin.

(** * Properties *)

(** ** The result monad *)

Lemma rmap_length {A B : Type} (f : A -> result B) :
  forall l ys, rmap f l = OK ys -> length ys = length l.
Proof.
  induction l as [|x l IH]; simpl; intros ys E.
  - now inversion E.
  - destruct (f x); simpl in E; [|discriminate].
    destruct (rmap f l); simpl in E; [|discriminate].
    inversion E; subst; simpl; f_equal; now apply IH.
Qed.

Lemma rmap_nth {A B : Type} (f : A -> result B) :
  forall l ys i x, rmap f l = OK ys -> nth_error l i = Some x ->
    exists y, f x = OK y /\ nth_error ys i = Some y.
Proof.
  induction l as [|a l IH]; simpl; intros ys i x E Hn.
  - destruct i; discriminate.
  - destruct (f a) as [b|] eqn:Ea; simpl in E; [|discriminate].
    destruct (rmap f l) as [bs|] eqn:El; simpl in E; [|discriminate].
    inversion E; subst; clear E.
    destruct i as [|i]; simpl in Hn.
    + inversion Hn; subst. exists b; now split.
    + now apply (IH bs i x).
Qed.

Lemma rmap_total {A B : Type} (f : A -> result B) :
  forall l, (forall x, In x l -> exists y, f x = OK y) ->
    exists ys, rmap f l = OK ys.
Proof.
  induction l as [|a l IH]; simpl; intros Hall.
  - now exists [].
  - destruct (Hall a (or_introl eq_refl)) as [b Eb].
    destruct IH as [bs Ebs]; [intros; apply Hall; now right|].
    exists (b :: bs). now rewrite Eb, Ebs.
Qed.

Lemma rmap_Forall {A B : Type} (f : A -> result B) (P : B -> Prop) :
  (forall x y, f x = OK y -> P y) ->
  forall l ys, rmap f l = OK ys -> Forall P ys.
Proof.
  intros HP; induction l as [|a l IH]; simpl; intros ys E.
  - inversion E; constructor.
  - destruct (f a) as [b|] eqn:Ea; simpl in E; [|discriminate].
    destruct (rmap f l) as [bs|] eqn:El; simpl in E; [|discriminate].
    inversion E; subst. constructor; [now apply (HP a)|now apply IH].
Qed.

Lemma rmap_app {A B : Type} (f : A -> result B) :
  forall l1 l2,
    rmap f (l1 ++ l2)
    = rbind (rmap f l1) (fun y1 =>
        rbind (rmap f l2) (fun y2 => OK (y1 ++ y2))).
Proof.
  induction l1 as [|a l1 IH]; simpl; intros l2.
  - destruct (rmap f l2); reflexivity.
  - destruct (f a); simpl; [|reflexivity].
    rewrite IH. destruct (rmap f l1); simpl; [|reflexivity].
    destruct (rmap f l2); reflexivity.
Qed.

Lemma rmap_concat {A B : Type} (f : A -> result B) :
  forall cs,
    rmap f (concat cs)
    = rbind (rmap (rmap f) cs) (fun yss => OK (concat yss)).
Proof.
  induction cs as [|c cs IH]; simpl; [reflexivity|].
  rewrite rmap_app, IH.
  destruct (rmap f c); simpl; [|reflexivity].
  destruct (rmap (rmap f) cs); reflexivity.
Qed.

Lemma rmap_rbind_OK {A B C : Type} (g : A -> result B) (h : B -> C) :
  forall l,
    rmap (fun x => rbind (g x) (fun y => OK (h y))) l
    = rbind (rmap g l) (fun ys => OK (map h ys)).
Proof.
  induction l as [|a l IH]; simpl; [reflexivity|].
  destruct (g a); simpl; [|reflexivity].
  rewrite IH. destruct (rmap g l); reflexivity.
Qed.

(** ** The log *)

Section LogFacts.
Context `{RDKit} {Self : Type} `{!FingerprintTransformer Self}.

Lemma outcome_bind {A B : Type} (m : run A) (f : A -> run B) :
  outcome (bind m f) = rbind (outcome m) (fun a => outcome (f a)).
Proof. unfold bind; destruct (outcome m); reflexivity. Qed.

Lemma calls_bind_OK {A B : Type} (m : run A) (f : A -> run B) (a : A) :
  outcome m = OK a -> calls (bind m f) = calls m ++ calls (f a).
Proof. unfold bind; intros ->; reflexivity. Qed.

Lemma outcome_Parallel (self : Self) (w : Z) :
  forall cs,
    outcome (Parallel w (map (invoke self) cs))
    = rmap (_calculate_fingerprint self) cs.
Proof.
  induction cs as [|c cs IH]; simpl; [reflexivity|].
  rewrite outcome_bind; simpl.
  destruct (_calculate_fingerprint self c); simpl; [|reflexivity].
  rewrite outcome_bind, IH.
  destruct (rmap _ cs); reflexivity.
Qed.

Lemma calls_Parallel (self : Self) (w : Z) :
  forall cs rs,
    rmap (_calculate_fingerprint self) cs = OK rs ->
    calls (Parallel w (map (invoke self) cs)) = cs.
Proof.
  induction cs as [|c cs IH]; simpl; intros rs E; [reflexivity|].
  destruct (_calculate_fingerprint self c) as [r|] eqn:Ec; simpl in E;
    [|discriminate].
  destruct (rmap _ cs) as [rs'|] eqn:Ecs; simpl in E; [|discriminate].
  unfold bind at 1; simpl. rewrite Ec; simpl.
  unfold bind at 1. rewrite outcome_Parallel, Ecs; simpl.
  rewrite (IH rs' eq_refl). now rewrite app_nil_r.
Qed.

End LogFacts.

(** ** Chunks *)

Section ChunkFacts.
Context {A : Type}.
Local Open Scope nat_scope.

Lemma num_chunks_cover (N b : nat) :
  1 <= b -> N <= num_chunks N b * b.
Proof.
  intros Hb; unfold num_chunks.
  destruct (N =? 0) eqn:E; [apply Nat.eqb_eq in E; lia|].
  apply Nat.eqb_neq in E.
  pose proof (Nat.div_mod_eq (N - 1) b) as Hd.
  pose proof (Nat.mod_upper_bound (N - 1) b ltac:(lia)) as Hm.
  nia.
Qed.

Lemma num_chunks_tight (N b k : nat) :
  1 <= b -> k < num_chunks N b -> k * b < N.
Proof.
  intros Hb; unfold num_chunks.
  destruct (N =? 0) eqn:E; [lia|].
  apply Nat.eqb_neq in E.
  pose proof (Nat.div_mod_eq (N - 1) b) as Hd.
  intros Hk. nia.
Qed.

Lemma num_chunks_pos (N b : nat) : N <> 0 -> 1 <= num_chunks N b.
Proof.
  intros HN; unfold num_chunks.
  destruct (N =? 0) eqn:E; [apply Nat.eqb_eq in E|]; lia.
Qed.

Lemma concat_pieces (b : nat) :
  forall m (X : list A), length X <= m * b ->
    concat (map (fun k => firstn b (skipn (k * b) X)) (seq 0 m)) = X.
Proof.
  induction m as [|m IH]; intros X HX.
  - destruct X; [reflexivity|simpl in HX; lia].
  - cbn [seq map concat]. rewrite <- seq_shift, map_map.
    rewrite (map_ext _ (fun k => firstn b (skipn (k * b) (skipn b X)))).
    + rewrite IH; [apply firstn_skipn|].
      rewrite length_skipn; lia.
    + intros k. rewrite skipn_skipn. do 2 f_equal; lia.
Qed.

Lemma concat_chunks (b : nat) (X : list A) :
  1 <= b -> concat (chunks b X) = X.
Proof.
  intros Hb; unfold chunks. apply concat_pieces.
  now apply num_chunks_cover.
Qed.

Lemma length_chunks (b : nat) (X : list A) :
  length (chunks b X) = num_chunks (length X) b.
Proof. unfold chunks; now rewrite length_map, length_seq. Qed.

Lemma chunks_nth (b : nat) (X : list A) (k : nat) (c : list A) :
  nth_error (chunks b X) k = Some c ->
  k < num_chunks (length X) b /\ c = firstn b (skipn (k * b) X).
Proof.
  unfold chunks; rewrite nth_error_map, nth_error_seq.
  destruct (k <? num_chunks (length X) b) eqn:E; simpl; [|discriminate].
  apply Nat.ltb_lt in E. intros [= <-]. now split.
Qed.

Lemma chunks_nonempty (b : nat) (X : list A) (c : list A) :
  1 <= b -> In c (chunks b X) -> 1 <= length c <= b.
Proof.
  intros Hb Hin. destruct (In_nth_error _ _ Hin) as [k Hk].
  apply chunks_nth in Hk as [Hk ->].
  pose proof (num_chunks_tight _ _ _ Hb Hk).
  rewrite length_firstn, length_skipn; lia.
Qed.

Lemma chunks_full (b : nat) (X : list A) (k : nat) (c : list A) :
  1 <= b -> nth_error (chunks b X) k = Some c ->
  S k < length (chunks b X) -> length c = b.
Proof.
  intros Hb Hk Hlast. rewrite length_chunks in Hlast.
  apply chunks_nth in Hk as [_ ->].
  pose proof (num_chunks_tight _ _ _ Hb Hlast).
  rewrite length_firstn, length_skipn; lia.
Qed.

End ChunkFacts.

(** ** Python's [range] and slices against [chunks] *)

Lemma slice_piece {A : Type} (X : list A) (b : Z) (k : nat) :
  1 <= b -> (k * Z.to_nat b < length X)%nat ->
  slice X (0 + Z.of_nat k * b) (0 + Z.of_nat k * b + b)
  = firstn (Z.to_nat b) (skipn (k * Z.to_nat b) X).
Proof.
  intros Hb Hk. unfold slice, clamp, len.
  assert (Hi : 0 <= 0 + Z.of_nat k * b) by nia.
  assert (Hkb : Z.of_nat (k * Z.to_nat b) = 0 + Z.of_nat k * b).
  { rewrite Nat2Z.inj_mul, Z2Nat.id; lia. }
  destruct (0 + Z.of_nat k * b <? 0) eqn:E1; [apply Z.ltb_lt in E1; lia|].
  destruct (0 + Z.of_nat k * b + b <? 0) eqn:E2; [apply Z.ltb_lt in E2; lia|].
  replace (Z.to_nat (Z.min (0 + Z.of_nat k * b) (Z.of_nat (length X))))
    with (k * Z.to_nat b)%nat by lia.
  set (l := skipn (k * Z.to_nat b) X).
  assert (Hl : length l = (length X - k * Z.to_nat b)%nat)
    by (unfold l; apply length_skipn).
  destruct (Z_le_gt_dec (0 + Z.of_nat k * b + b) (Z.of_nat (length X)))
    as [Hle|Hgt].
  - f_equal. lia.
  - rewrite (firstn_all2 (n := Z.to_nat b)) by lia.
    apply firstn_all2. lia.
Qed.

Lemma range_count (N : nat) (b : Z) :
  1 <= b ->
  Z.to_nat (if 0 <? Z.of_nat N then (Z.of_nat N - 0 - 1) / b + 1 else 0)
  = num_chunks N (Z.to_nat b).
Proof.
  intros Hb. unfold num_chunks.
  destruct N as [|N']; [reflexivity|].
  set (N := S N'). assert (HN : (1 <= N)%nat) by (unfold N; lia).
  replace (0 <? Z.of_nat N) with true by (symmetry; apply Z.ltb_lt; lia).
  replace (N =? 0)%nat with false by (symmetry; apply Nat.eqb_neq; lia).
  apply Nat2Z.inj.
  assert (0 <= (Z.of_nat N - 0 - 1) / b) by (apply Z.div_pos; lia).
  rewrite Z2Nat.id by lia.
  rewrite Nat2Z.inj_add, Nat2Z.inj_div, Nat2Z.inj_sub, Z2Nat.id by lia.
  change (Z.of_nat 1) with 1.
  now replace (Z.of_nat N - 0 - 1) with (Z.of_nat N - 1) by lia.
Qed.

Lemma args_chunks {A : Type} (X : list A) (b : Z) :
  1 <= b ->
  exists idx,
    range 0 (len X) b = OK idx
    /\ map (fun i => slice X i (i + b)) idx = chunks (Z.to_nat b) X.
Proof.
  intros Hb. unfold range.
  replace (b =? 0) with false by (symmetry; apply Z.eqb_neq; lia).
  replace (0 <? b) with true by (symmetry; apply Z.ltb_lt; lia).
  eexists; split; [reflexivity|].
  unfold len; rewrite range_count by assumption.
  unfold chunks; rewrite map_map. apply map_ext_in.
  intros k Hk. apply in_seq in Hk.
  apply slice_piece; [assumption|].
  apply num_chunks_tight; lia.
Qed.

(** ** The two paths of [transform] *)

Section Paths.
Context `{RDKit} {Self : Type} `{!FingerprintTransformer Self}.

Lemma transform_serial (self : Self) (X : list pyobj) :
  n_jobs self = 1 ->
  transform self X = mk_run [X] (_calculate_fingerprint self X).
Proof. intros E; unfold transform; rewrite E; reflexivity. Qed.

Lemma bind_lift_OK {A B : Type} (a : A) (f : A -> run B) :
  bind (lift (OK a)) f = f a.
Proof. unfold bind, lift; simpl. now destruct (f a). Qed.

Lemma bind_ext {A B : Type} (m : run A) (f g : A -> run B) :
  (forall a, f a = g a) -> bind m f = bind m g.
Proof. intros E; unfold bind. destruct (outcome m); now rewrite ?E. Qed.

Lemma transform_parallel (self : Self) (X : list pyobj) :
  n_jobs self <> 1 -> n_jobs self <> 0 ->
  transform self X
  = (results <- Parallel (n_jobs self)
                  (map (invoke self)
                     (chunks (Z.to_nat (Z.max (len X / n_jobs self) 1)) X)) ;;
     lift (aggregate results)).
Proof.
  intros H1 H0. unfold transform, floordiv.
  replace (n_jobs self =? 1) with false by (symmetry; now apply Z.eqb_neq).
  replace (n_jobs self =? 0) with false by (symmetry; now apply Z.eqb_neq).
  rewrite bind_lift_OK.
  destruct (args_chunks X (Z.max (len X / n_jobs self) 1)) as [idx [-> <-]];
    [lia|].
  rewrite bind_lift_OK.
  apply bind_ext. intros results. unfold aggregate.
  destruct (getitem results 0) as [r0|e]; [|reflexivity].
  rewrite bind_lift_OK. simpl.
  destruct (isinstance_csr_array r0); reflexivity.
Qed.

Lemma outcome_transform_parallel (self : Self) (X : list pyobj) :
  n_jobs self <> 1 -> n_jobs self <> 0 ->
  outcome (transform self X)
  = rbind (rmap (_calculate_fingerprint self)
                (chunks (Z.to_nat (Z.max (len X / n_jobs self) 1)) X))
          aggregate.
Proof.
  intros H1 H0. rewrite transform_parallel by assumption.
  now rewrite outcome_bind, outcome_Parallel.
Qed.

Lemma calls_transform_parallel (self : Self) (X : list pyobj) rs :
  n_jobs self <> 1 -> n_jobs self <> 0 ->
  rmap (_calculate_fingerprint self)
       (chunks (Z.to_nat (Z.max (len X / n_jobs self) 1)) X) = OK rs ->
  calls (transform self X)
  = chunks (Z.to_nat (Z.max (len X / n_jobs self) 1)) X.
Proof.
  intros H1 H0 E. rewrite transform_parallel by assumption.
  rewrite (calls_bind_OK _ _ rs) by (now rewrite outcome_Parallel).
  rewrite (calls_Parallel _ _ _ rs E). apply app_nil_r.
Qed.

End Paths.

(** ** numpy and scipy on well-shaped rows *)

Lemma homogeneous_Forall (k : nat) (rows : list (list Z)) :
  Forall (fun r => length r = k) rows -> homogeneous rows = true.
Proof.
  intros Hall. destruct rows as [|r rest]; [reflexivity|].
  unfold homogeneous. apply forallb_forall. intros r' Hin.
  rewrite Forall_forall in Hall.
  rewrite (Hall r' Hin), (Hall r (or_introl eq_refl)). apply Nat.eqb_refl.
Qed.

Lemma build_assemble (sp : bool) (k : nat) (rows : list (list Z)) :
  rows <> [] -> Forall (fun r => length r = k) rows ->
  build sp rows = OK (assemble sp k rows).
Proof.
  intros Hne Hall. pose proof (homogeneous_Forall k rows Hall) as Hh.
  destruct rows as [|r rest]; [congruence|].
  assert (Hr : length r = k) by (now inversion Hall).
  unfold build, assemble, csr_array_of, np_array.
  rewrite Hh, Hr. now destruct sp.
Qed.

Lemma concat_map_concat {A : Type} (l : list (list (list A))) :
  concat (map (@concat A) l) = concat (concat l).
Proof.
  induction l as [|x l IH]; simpl; [reflexivity|].
  now rewrite concat_app, IH.
Qed.

Lemma aggregate_assemble (sp : bool) (k : nat) (rss : list (list (list Z))) :
  rss <> [] ->
  aggregate (map (assemble sp k) rss) = OK (assemble sp k (concat rss)).
Proof.
  intros Hne. destruct rss as [|rs rest]; [congruence|].
  unfold aggregate. cbn [map getitem Z.ltb Z.compare Z.to_nat nth_error rbind].
  destruct sp; cbn [assemble isinstance_csr_array].
  - unfold sparse_vstack.
    assert (E : forall l,
      rmap as_block
        (map (fun rows => Sparse (mk_csr (length rows) k
                                     (map to_sparse_row rows))) l)
      = OK (map (fun rows => mk_csr (length rows) k (map to_sparse_row rows))
                l)).
    { induction l as [|x l IH]; simpl; [reflexivity|]. now rewrite IH. }
    change (Sparse (mk_csr (length rs) k (map to_sparse_row rs))
            :: map (assemble true k) rest)
      with (map (fun rows => Sparse (mk_csr (length rows) k
                                       (map to_sparse_row rows)))
                (rs :: rest)).
    rewrite E. cbn [rbind map sp_ncols].
    replace (forallb _ _) with true.
    + cbn [negb]. do 2 f_equal.
      rewrite length_concat, concat_map. f_equal.
      * cbn [list_sum map sp_nrows]. f_equal. now rewrite map_map.
      * cbn [concat map sp_rows]. f_equal. now rewrite map_map.
    + symmetry. apply forallb_forall. intros b Hb.
      apply in_map_iff in Hb as [rows [<- _]]. apply Nat.eqb_refl.
  - unfold np_concatenate.
    change (Dense (mk_ndarray [length rs; k] (concat rs))
            :: map (assemble false k) rest)
      with (map (fun rows => Dense (mk_ndarray [length rows; k] (concat rows)))
                (rs :: rest)).
    rewrite map_map. cbn [asarray map shape length].
    set (arrs := map (fun rows => mk_ndarray [length rows; k] (concat rows))
                     rest).
    assert (E1 : forallb (fun b => (length (shape b) =? 2)%nat) arrs = true).
    { apply forallb_forall. intros b Hb.
      apply in_map_iff in Hb as [rows [<- _]]. reflexivity. }
    assert (E2 : forallb (fun b => list_nat_eqb (tl (shape b)) [k]) arrs
                 = true).
    { apply forallb_forall. intros b Hb.
      apply in_map_iff in Hb as [rows [<- _]]. cbn [shape tl].
      unfold list_nat_eqb. now destruct (list_eq_dec Nat.eq_dec [k] [k]). }
    rewrite E1, E2. cbn [negb]. unfold arrs.
    rewrite length_concat. cbn [list_sum map hd shape concat data].
    rewrite concat_app, !map_map. cbn [shape hd data].
    now rewrite concat_map_concat.
Qed.

(** ** Rows of an assembled matrix *)

Lemma dense_row_nth (k : nat) :
  forall (rows : list (list Z)) (i : nat) (r : list Z),
    Forall (fun r => length r = k) rows ->
    nth_error rows i = Some r ->
    firstn k (skipn (i * k) (concat rows)) = r.
Proof.
  induction rows as [|r0 rows IH]; intros i r Hall Hi.
  - destruct i; discriminate.
  - inversion Hall as [|? ? Hr0 Hrows]; subst.
    destruct i as [|i]; simpl in Hi.
    + inversion Hi; subst. cbn [Nat.mul skipn concat].
      rewrite firstn_app, Nat.sub_diag, firstn_all, firstn_O.
      apply app_nil_r.
    + cbn [concat]. rewrite skipn_app.
      rewrite (skipn_all2 (n := (S i * length r0)%nat)) by (simpl; lia).
      cbn [app].
      replace (S i * length r0 - length r0)%nat with (i * length r0)%nat
        by (simpl; lia).
      now apply IH.
Qed.

Lemma find_above (r : list Z) :
  forall (s c : nat), (c < s)%nat ->
    find (fun cv : nat * Z => (fst cv =? c)%nat)
         (filter (fun cv => negb (snd cv =? 0))
                 (combine (seq s (length r)) r)) = None.
Proof.
  intros s c Hc.
  destruct (find _ _) as [cv|] eqn:E; [|reflexivity].
  apply find_some in E as [Hin Heq].
  apply filter_In in Hin as [Hin _].
  destruct cv as [c' v]. apply in_combine_l in Hin.
  apply in_seq in Hin. apply Nat.eqb_eq in Heq. simpl in Heq. lia.
Qed.

Lemma densify_from (r : list Z) :
  forall s,
    map (fun c => match find (fun cv : nat * Z => (fst cv =? c)%nat)
                         (filter (fun cv => negb (snd cv =? 0))
                                 (combine (seq s (length r)) r)) with
                  | Some cv => snd cv
                  | None => 0
                  end) (seq s (length r)) = r.
Proof.
  induction r as [|x r IH]; intros s; [reflexivity|].
  cbn [length seq combine filter map snd]. f_equal.
  - destruct (x =? 0) eqn:Ex; cbn [negb find fst snd].
    + rewrite find_above by lia. apply Z.eqb_eq in Ex. now subst.
    + now rewrite Nat.eqb_refl.
  - etransitivity; [|apply (IH (S s))]. apply map_ext_in.
    intros c Hc. apply in_seq in Hc.
    destruct (x =? 0); cbn [negb find fst]; [reflexivity|].
    replace (s =? c)%nat with false by (symmetry; apply Nat.eqb_neq; lia).
    reflexivity.
Qed.

Lemma densify_sparsify (r : list Z) :
  dense_of_sparse_row (length r) (to_sparse_row r) = r.
Proof. apply densify_from. Qed.

Lemma row_assemble (sp : bool) (k : nat) (rows : list (list Z)) (i : nat) :
  Forall (fun r => length r = k) rows ->
  row (assemble sp k rows) i = nth_error rows i.
Proof.
  intros Hall. destruct sp; cbn [assemble row shape data sp_nrows sp_ncols sp_rows].
  - destruct (i <? length rows)%nat eqn:E.
    + rewrite nth_error_map.
      destruct (nth_error rows i) as [r|] eqn:Hi; [|reflexivity].
      cbn [option_map]. f_equal.
      rewrite Forall_forall in Hall.
      rewrite <- (Hall r (nth_error_In _ _ Hi)). apply densify_sparsify.
    + apply Nat.ltb_ge in E. symmetry. now apply nth_error_None.
  - destruct (i <? length rows)%nat eqn:E.
    + apply Nat.ltb_lt in E.
      destruct (nth_error rows i) as [r|] eqn:Hi.
      * f_equal. now apply dense_row_nth.
      * apply nth_error_None in Hi. lia.
    + apply Nat.ltb_ge in E. symmetry. now apply nth_error_None.
Qed.

Lemma nrows_assemble (sp : bool) (k : nat) (rows : list (list Z)) :
  nrows (assemble sp k rows) = Some (length rows).
Proof. now destruct sp. Qed.

Lemma isinstance_assemble (sp : bool) (k : nat) (rows : list (list Z)) :
  isinstance_csr_array (assemble sp k rows) = sp.
Proof. now destruct sp. Qed.

(** ** Row-wise units: chunking is invisible *)

Section Rowwise.
Context `{RDKit} {Self : Type} `{!FingerprintTransformer Self}.
Variables (self : Self) (f : pyobj -> result (list Z)) (k : nat) (sp : bool).
Hypothesis R : rowwise self f k sp.

Lemma rows_width (X : list pyobj) (rows : list (list Z)) :
  rmap f X = OK rows -> Forall (fun r => length r = k) rows.
Proof. apply rmap_Forall. exact (proj1 R). Qed.

Lemma unit_rows (X : list pyobj) (rows : list (list Z)) :
  X <> [] -> rmap f X = OK rows ->
  _calculate_fingerprint self X = OK (assemble sp k rows).
Proof.
  intros Hne E. rewrite (proj2 R), E. cbn [rbind].
  apply build_assemble; [|now apply (rows_width X)].
  intros ->. apply rmap_length in E. destruct X; [congruence|discriminate].
Qed.

Lemma unit_raise (X : list pyobj) (e : exn) :
  rmap f X = Raise e -> _calculate_fingerprint self X = Raise e.
Proof. intros E. now rewrite (proj2 R), E. Qed.

Lemma units_on_chunks :
  forall cs : list (list pyobj),
    (forall c, In c cs -> c <> []) ->
    rmap (_calculate_fingerprint self) cs
    = rbind (rmap (rmap f) cs) (fun rss => OK (map (assemble sp k) rss)).
Proof.
  induction cs as [|c cs IH]; intros Hne; [reflexivity|].
  cbn [rmap]. rewrite IH by (intros; apply Hne; now right).
  destruct (rmap f c) as [rows|e] eqn:E.
  - rewrite (unit_rows c rows) by (auto using in_eq). cbn [rbind].
    now destruct (rmap (rmap f) cs).
  - now rewrite (unit_raise c e).
Qed.

Lemma parallel_is_serial (X : list pyobj) :
  n_jobs self <> 0 -> X <> [] ->
  outcome (transform self X) = _calculate_fingerprint self X.
Proof.
  intros H0 Hne.
  destruct (Z.eq_dec (n_jobs self) 1) as [H1|H1];
    [now rewrite transform_serial|].
  rewrite outcome_transform_parallel by assumption.
  set (b := Z.to_nat (Z.max (len X / n_jobs self) 1)).
  assert (Hb : (1 <= b)%nat) by (unfold b; lia).
  rewrite units_on_chunks
    by (intros c Hc Ec; apply (chunks_nonempty b X c Hb) in Hc;
        subst c; simpl in Hc; lia).
  pose proof (rmap_concat f (chunks b X)) as Ecat.
  rewrite (concat_chunks b X Hb) in Ecat.
  destruct (rmap (rmap f) (chunks b X)) as [rss|e] eqn:E; cbn [rbind] in *.
  - rewrite (unit_rows X (concat rss) Hne Ecat).
    apply aggregate_assemble. intros ->.
    apply rmap_length in E. rewrite length_chunks in E.
    pose proof (num_chunks_pos (length X) b).
    destruct X; [congruence|simpl in *; lia].
  - now rewrite (unit_raise X e).
Qed.

End Rowwise.

(** ** The Avalon unit is row-wise *)

Lemma Avalon_rowwise `{RDKit} (self : AvalonFingerprint) :
  rowwise self (Avalon_entry_fp self) (fp_size self) (sparse self).
Proof.
  split.
  - intros x r. unfold Avalon_entry_fp.
    destruct (ensure_mol x) as [m|]; cbn [rbind]; [|discriminate].
    intros [= <-].
    destruct (count self);
      [apply GetAvalonCountFP_length|apply GetAvalonFP_length].
  - intros X. cbn [_calculate_fingerprint Avalon_transformer].
    unfold Avalon_calculate_fingerprint, Avalon_entry_fp, ensure_mols.
    rewrite rmap_rbind_OK.
    destruct (rmap ensure_mol X) as [ms|]; cbn [rbind]; [|reflexivity].
    unfold build. now destruct (count self).
Qed.

(** ** Validation *)

Section ValidationFacts.
Context `{RDKit}.

Lemma validate_accepts (X : list pyobj) :
  (forall x, In x X -> isinstance_Mol x || type_eq_str x = true) ->
  _validate_input X
  = OK (map (fun x => match x with
                      | py_str None s => handle (MolFromSmiles s)
                      | _ => x
                      end) X).
Proof.
  intros Hall. unfold _validate_input.
  replace (forallb _ X) with true; [reflexivity|].
  symmetry. now apply forallb_forall.
Qed.

Lemma validate_rejects (X : list pyobj) (x : pyobj) :
  In x X -> isinstance_Mol x = false -> type_eq_str x = false ->
  _validate_input X
  = Raise (ValueError
             "Passed value is neither rdkit.Chem.rdChem.Mol nor SMILES").
Proof.
  intros Hin Hm Hs. unfold _validate_input.
  destruct (forallb _ X) eqn:E; [|reflexivity].
  rewrite forallb_forall in E. specialize (E x Hin).
  rewrite Hm, Hs in E. discriminate.
Qed.

Lemma validate_cases (X : list pyobj) :
  (forall x, In x X -> isinstance_Mol x || type_eq_str x = true)
  \/ (exists x, In x X /\ isinstance_Mol x = false /\ type_eq_str x = false).
Proof.
  destruct (forallb (fun x => isinstance_Mol x || type_eq_str x) X) eqn:E.
  - left. now apply forallb_forall.
  - right.
    assert (Hex : existsb (fun x => negb (isinstance_Mol x || type_eq_str x))
                          X = true).
    { clear -E. induction X as [|a X IH]; simpl in *; [discriminate|].
      destruct (isinstance_Mol a || type_eq_str a); simpl in *; auto. }
    apply existsb_exists in Hex as [x [Hin Hx]].
    exists x. split; [assumption|].
    apply negb_true_iff, orb_false_iff in Hx. exact Hx.
Qed.

End ValidationFacts.

(** ** Dispatch comes first *)

Section DispatchFacts.
Context `{RDKit} {Self : Type} `{!FingerprintTransformer Self}.

Lemma calls_bind_prefix {A B : Type} (m : run A) (g : A -> run B) :
  exists rest, calls (bind m g) = calls m ++ rest.
Proof.
  unfold bind. destruct (outcome m) as [a|e]; cbn [calls].
  - now exists (calls (g a)).
  - exists []. now rewrite app_nil_r.
Qed.

Lemma first_chunk_dispatched (self : Self) (X : list pyobj) :
  n_jobs self <> 1 -> n_jobs self <> 0 -> X <> [] ->
  exists rest,
    calls (transform self X)
    = slice X 0 (Z.max (len X / n_jobs self) 1) :: rest.
Proof.
  intros H1 H0 Hne. rewrite transform_parallel by assumption.
  set (b := Z.max (len X / n_jobs self) 1).
  assert (Hb : 1 <= b) by (unfold b; lia).
  assert (Hpos : (0 < length X)%nat)
    by (destruct X; [congruence|simpl; lia]).
  pose proof (slice_piece X b 0 Hb ltac:(simpl; lia)) as Esl.
  cbn [Z.of_nat Z.mul Z.add Nat.mul skipn] in Esl.
  unfold chunks.
  pose proof (num_chunks_pos (length X) (Z.to_nat b) ltac:(lia)) as Hn.
  destruct (num_chunks (length X) (Z.to_nat b)) as [|n]; [lia|].
  cbn [seq map Parallel Nat.mul skipn]. rewrite <- Esl.
  destruct (calls_bind_prefix
              (r <- invoke self (slice X 0 b) ;;
               rs <- Parallel (n_jobs self)
                       (map (invoke self)
                          (map (fun k => firstn (Z.to_nat b)
                                           (skipn (k * Z.to_nat b) X))
                               (seq 1 n))) ;;
               ret (r :: rs))
              (fun results => lift (aggregate results))) as [rest1 E1].
  rewrite E1.
  destruct (calls_bind_prefix (invoke self (slice X 0 b))
              (fun r => rs <- Parallel (n_jobs self)
                       (map (invoke self)
                          (map (fun k => firstn (Z.to_nat b)
                                           (skipn (k * Z.to_nat b) X))
                               (seq 1 n))) ;;
               ret (r :: rs))) as [rest2 E2].
  rewrite E2. cbn [invoke calls app]. now eexists.
Qed.

End DispatchFacts.

(** ** The empty input and the aggregator *)

(** The serial path on the empty input returns what the unit makes of
    an empty list: for Avalon a one-dimensional array of shape (0,), or
    a sparse matrix with one row and no column. Neither has the
    configured column count. *)
Lemma Avalon_serial_empty `{RDKit} (n : nat) (c : bool) :
  transform (mk_Avalon n c false 1) []
  = mk_run [[]] (OK (Dense (mk_ndarray [0%nat] [])))
  /\ transform (mk_Avalon n c true 1) []
     = mk_run [[]] (OK (Sparse (mk_csr 1 0 [[]]))).
Proof. split; cbv; now destruct c. Qed.

Lemma concatenate_mismatch (results : list array) (r0 r : array) :
  hd_error results = Some r0 ->
  isinstance_csr_array r0 = false ->
  Forall (fun r' => isinstance_csr_array r' = false /\ ncols r' <> None)
         results ->
  In r results ->
  ncols r <> ncols r0 ->
  np_concatenate results
  = Raise (ValueError "all the input array dimensions except for the concatenation axis must match exactly").
Proof.
  intros Hhd _ Hall Hin Hneq.
  destruct results as [|r0' rest]; [discriminate|].
  injection Hhd as ->.
  assert (Hshape : forall r', In r' (r0 :: rest) ->
            exists n k, asarray r' = mk_ndarray [n; k] (data (asarray r'))
                        /\ ncols r' = Some k).
  { intros r' Hr'. rewrite Forall_forall in Hall.
    destruct (Hall r' Hr') as [Hd Hc].
    destruct r' as [a|m]; [|discriminate]. destruct a as [sh d].
    cbn in *. destruct sh as [|n [|k [|? ?]]]; try congruence.
    now exists n, k. }
  destruct (Hshape r0 (in_eq _ _)) as [n0 [k0 [E0 C0]]].
  unfold np_concatenate. cbn [map]. rewrite E0. cbn [shape length].
  replace (forallb (fun b => (length (shape b) =? 2)%nat) (map asarray rest))
    with true.
  - cbn [negb].
    replace (forallb (fun b => list_nat_eqb (tl (shape b)) [k0])
                     (map asarray rest)) with false; [reflexivity|].
    symmetry. apply not_true_is_false. intros Hf.
    rewrite forallb_forall in Hf.
    destruct Hin as [<-|Hin]; [congruence|].
    destruct (Hshape r (in_cons _ _ _ Hin)) as [n [k [E C]]].
    specialize (Hf (asarray r) (in_map asarray _ _ Hin)).
    rewrite E in Hf. cbn [shape tl] in Hf. unfold list_nat_eqb in Hf.
    destruct (list_eq_dec Nat.eq_dec [k] [k0]) as [Ek|]; [|discriminate].
    congruence.
  - symmetry. apply forallb_forall. intros b Hb.
    apply in_map_iff in Hb as [r' [<- Hr']].
    destruct (Hshape r' (in_cons _ _ _ Hr')) as [n [k [E _]]].
    now rewrite E.
Qed.

Lemma vstack_mismatch (results : list array) (r0 r : array) :
  hd_error results = Some r0 ->
  Forall (fun r' => isinstance_csr_array r' = true) results ->
  In r results ->
  ncols r <> ncols r0 ->
  sparse_vstack results
  = Raise (ValueError "Mismatching dimensions along axis 1").
Proof.
  intros Hhd Hall Hin Hneq.
  assert (Hblocks : exists blocks, results = map Sparse blocks).
  { clear -Hall. induction Hall as [|x l Hx _ [bs ->]]; [now exists []|].
    destruct x as [a|m]; [discriminate|]. now exists (m :: bs). }
  destruct Hblocks as [blocks ->].
  assert (E : rmap as_block (map Sparse blocks) = OK blocks).
  { clear. induction blocks as [|b bs IH]; cbn; [reflexivity|].
    now rewrite IH. }
  unfold sparse_vstack. rewrite E. cbn [rbind].
  destruct blocks as [|b0 rest]; [discriminate|].
  injection Hhd as <-.
  replace (forallb _ rest) with false; [reflexivity|].
  symmetry. apply not_true_is_false. intros Hf.
  rewrite forallb_forall in Hf.
  destruct Hin as [<-|Hin]; [congruence|].
  apply in_map_iff in Hin as [b [<- Hb]].
  specialize (Hf b Hb). apply Nat.eqb_eq in Hf. cbn in Hneq. congruence.
Qed.

(** * The claims *)

(** C1 (order preservation). For a transformer whose unit is row-wise,
    with any worker count [W >= 1] and any input [X]: whenever
    [transform(X)] returns a matrix [M], then for every index [i] of [X]
    the matrix has [len(X)] rows and its row [i] is the fingerprint of
    [X[i]], which is also row 0 of what the single-worker transformer
    returns on [[X[i]]]. And [transform(X)] does return a matrix for a
    non-empty [X] as soon as every entry alone is accepted by the
    single-worker transformer. *)
Theorem C1_order_preservation `{RDKit} {Self : Type}
  `{!FingerprintTransformer Self} (self s1 : Self)
  (f : pyobj -> result (list Z)) (k : nat) (sp : bool) :
  rowwise self f k sp ->
  n_jobs s1 = 1 ->
  (forall Y, _calculate_fingerprint s1 Y = _calculate_fingerprint self Y) ->
  1 <= n_jobs self ->
  forall X : list pyobj,
    (forall M i x,
       outcome (transform self X) = OK M ->
       nth_error X i = Some x ->
       nrows M = Some (length X)
       /\ exists r M1,
            f x = OK r
            /\ row M i = Some r
            /\ outcome (transform s1 [x]) = OK M1
            /\ row M1 0 = Some r)
    /\ (X <> [] ->
        (forall x, In x X -> exists M1, outcome (transform s1 [x]) = OK M1) ->
        exists M, outcome (transform self X) = OK M).
Proof.
  intros R Hs1 Hunit HW X.
  assert (Hsingle : forall x, outcome (transform s1 [x])
                              = rbind (rmap f [x]) (build sp)).
  { intros x. rewrite (transform_serial s1 [x] Hs1). cbn [outcome].
    rewrite Hunit. apply (proj2 R). }
  split.
  - intros M i x EM Hi.
    assert (Hne : X <> []) by (intros ->; destruct i; discriminate).
    rewrite (parallel_is_serial self f k sp R X) in EM
      by (assumption || lia).
    destruct (rmap f X) as [rows|e] eqn:Erows;
      [|rewrite (unit_raise self f k sp R X e Erows) in EM; discriminate].
    rewrite (unit_rows self f k sp R X rows Hne Erows) in EM.
    injection EM as <-.
    split; [rewrite nrows_assemble; f_equal; now apply rmap_length in Erows|].
    destruct (rmap_nth f X rows i x Erows Hi) as [r [Er Hr]].
    exists r, (assemble sp k [r]).
    pose proof (rows_width self f k sp R X rows Erows) as Hw.
    assert (Hr1 : Forall (fun r' => length r' = k) [r])
      by (constructor; [exact (proj1 R x r Er)|constructor]).
    split; [exact Er|].
    split; [now rewrite row_assemble|].
    split; [|now rewrite row_assemble].
    rewrite Hsingle. cbn [rmap rbind]. rewrite Er. cbn [rbind].
    now apply build_assemble.
  - intros Hne Hall.
    rewrite (parallel_is_serial self f k sp R X) by (assumption || lia).
    destruct (rmap_total f X) as [rows Erows].
    + intros x Hx. destruct (Hall x Hx) as [M1 EM1].
      rewrite Hsingle in EM1. cbn [rmap] in EM1.
      destruct (f x) as [r|e]; [now exists r|discriminate].
    + exists (assemble sp k rows).
      now apply (unit_rows self f k sp R).
Qed.

(** C1 on five molecules, two workers, sparse count vectors of four
    entries. *)
Lemma C1_order_preservation_witness :
  let self := mk_Avalon 4 true true 2 in
  let s1 := with_n_jobs self 1 in
  1 <= n_jobs self
  /\ Demo.five <> []
  /\ (forall M i x,
        outcome (transform self Demo.five) = OK M ->
        nth_error Demo.five i = Some x ->
        nrows M = Some 5%nat
        /\ exists r M1,
             Avalon_entry_fp self x = OK r
             /\ row M i = Some r
             /\ outcome (transform s1 [x]) = OK M1
             /\ row M1 0 = Some r)
  /\ exists M, outcome (transform self Demo.five) = OK M.
Proof.
  intros self s1.
  assert (HW : 1 <= n_jobs self) by (simpl; lia).
  assert (Hne : Demo.five <> []) by discriminate.
  destruct (C1_order_preservation self s1 (Avalon_entry_fp self) 4 true
              (Avalon_rowwise self) eq_refl (fun Y => eq_refl) HW
              Demo.five) as [Hrows Htotal].
  split; [exact HW|]. split; [exact Hne|]. split; [exact Hrows|].
  apply (Htotal Hne). intros x Hx.
  repeat (destruct Hx as [<-|Hx]; [eexists; vm_compute; reflexivity|]).
  destruct Hx.
Defined.

(** C2 (parallelism invariance). Two transformers that differ only in
    the worker count, 1 against 4, with the same row-wise (that is,
    per-molecule deterministic) unit, on an input of at least four
    entries. The serial one makes exactly one call of the unit, on the
    whole input, and returns what that call returns. The parallel one
    returns a matrix exactly when that one call returns it, the very
    same matrix, so each of the two returns a matrix exactly when the
    other returns the same one. When every entry has a fingerprint both
    return the matrix assembled from all the fingerprints in input
    order; when the serial one raises, so does the parallel one. *)
Theorem C2_parallelism_invariance `{RDKit} {Self : Type}
  `{!FingerprintTransformer Self} (s1 s4 : Self)
  (f : pyobj -> result (list Z)) (k : nat) (sp : bool) :
  rowwise s4 f k sp ->
  n_jobs s1 = 1 ->
  n_jobs s4 = 4 ->
  (forall Y, _calculate_fingerprint s1 Y = _calculate_fingerprint s4 Y) ->
  forall X : list pyobj,
    4 <= len X ->
    calls (transform s1 X) = [X]
    /\ (forall M, outcome (transform s1 X) = OK M
                  <-> outcome (transform s4 X) = OK M)
    /\ transform s1 X = mk_run [X] (_calculate_fingerprint s1 X)
    /\ (forall M, _calculate_fingerprint s1 X = OK M
                  <-> outcome (transform s4 X) = OK M)
    /\ (forall rows, rmap f X = OK rows ->
          outcome (transform s1 X) = OK (assemble sp k rows)
          /\ outcome (transform s4 X) = OK (assemble sp k rows))
    /\ (forall e, outcome (transform s1 X) = Raise e ->
          exists e', outcome (transform s4 X) = Raise e').
Proof.
  intros R H1 H4 Hunit X HX.
  assert (Hne : X <> [])
    by (intros ->; unfold len in HX; simpl in HX; lia).
  assert (H0 : n_jobs s4 <> 0) by lia.
  pose proof (parallel_is_serial s4 f k sp R X H0 Hne) as Epar.
  rewrite (transform_serial s1 X H1). cbn [calls outcome].
  rewrite Epar, Hunit.
  split; [reflexivity|]. split; [tauto|]. split; [reflexivity|].
  split; [tauto|]. split.
  - intros rows Erows.
    now rewrite (unit_rows s4 f k sp R X rows Hne Erows).
  - intros e Ee. now exists e.
Qed.

(** C2 on five molecules, dense bit vectors of four entries: both
    transformers return one and the same matrix, which is what the unit
    returns on the whole input. *)
Lemma C2_parallelism_invariance_witness :
  let s1 := mk_Avalon 4 false false 1 in
  let s4 := mk_Avalon 4 false false 4 in
  4 <= len Demo.five
  /\ calls (transform s1 Demo.five) = [Demo.five]
  /\ exists M,
       _calculate_fingerprint s1 Demo.five = OK M
       /\ outcome (transform s1 Demo.five) = OK M
       /\ outcome (transform s4 Demo.five) = OK M
       /\ nrows M = Some 5%nat.
Proof.
  intros s1 s4.
  assert (HX : 4 <= len Demo.five) by (vm_compute; discriminate).
  split; [exact HX|].
  destruct (C2_parallelism_invariance s1 s4 (Avalon_entry_fp s4) 4 false
              (Avalon_rowwise s4) eq_refl eq_refl (fun Y => eq_refl)
              Demo.five HX)
    as [Hcalls [_ [Hser [Hpar [Hrows _]]]]].
  split; [exact Hcalls|].
  destruct (rmap (Avalon_entry_fp s4) Demo.five) as [rows|e] eqn:Erows;
    [|vm_compute in Erows; discriminate].
  destruct (Hrows rows eq_refl) as [E1 E4].
  exists (assemble false 4 rows).
  split; [now apply Hpar|]. split; [exact E1|]. split; [exact E4|].
  rewrite nrows_assemble. f_equal.
  now rewrite (rmap_length _ _ _ Erows).
Defined.

(** C3 (partition). With an effective worker count [W > 1] and
    [batch_size = max(N // W, 1)], the chunks that [transform] hands to
    the workers are the consecutive slices [X[j*batch_size :
    (j+1)*batch_size]]: concatenated in order they give back [X], every
    chunk but the last has exactly [batch_size] entries, every chunk has
    between 1 and [batch_size] entries, and there are
    [(N - 1) // batch_size + 1] of them for [N > 0], however that number
    compares with [W]: when the unit succeeds on each chunk, all of them
    were dispatched and the result is the aggregate of their outputs. *)
Theorem C3_chunk_partition `{RDKit} {Self : Type}
  `{!FingerprintTransformer Self} (self : Self) (X : list pyobj) :
  1 < n_jobs self ->
  let batch_size := Z.max (len X / n_jobs self) 1 in
  exists args : list (list pyobj),
    transform self X
    = (results <- Parallel (n_jobs self) (map (invoke self) args) ;;
       lift (aggregate results))
    /\ concat args = X
    /\ len args = (if 0 <? len X then (len X - 1) / batch_size + 1 else 0)
    /\ (forall j c, nth_error args j = Some c ->
          c = slice X (Z.of_nat j * batch_size)
                      (Z.of_nat j * batch_size + batch_size))
    /\ (forall j c, nth_error args j = Some c ->
          (S j < length args)%nat -> len c = batch_size)
    /\ (forall c, In c args -> 1 <= len c <= batch_size)
    /\ (forall rs, rmap (_calculate_fingerprint self) args = OK rs ->
          calls (transform self X) = args
          /\ outcome (transform self X) = aggregate rs).
Proof.
  intros HW batch_size.
  assert (Hb : 1 <= batch_size) by (unfold batch_size; lia).
  assert (Hbn : (1 <= Z.to_nat batch_size)%nat) by lia.
  assert (H1 : n_jobs self <> 1) by lia.
  assert (H0 : n_jobs self <> 0) by lia.
  exists (chunks (Z.to_nat batch_size) X).
  split; [now apply transform_parallel|].
  split; [now apply concat_chunks|].
  split.
  { unfold len at 1. rewrite length_chunks, <- (range_count _ _ Hb).
    replace (Z.of_nat (length X) - 0 - 1) with (len X - 1)
      by (unfold len; lia).
    fold (len X). rewrite Z2Nat.id; [reflexivity|].
    destruct (0 <? len X) eqn:E0; [apply Z.ltb_lt in E0|lia].
    assert (0 <= (len X - 1) / batch_size); [|lia].
    apply Z.div_pos; lia. }
  split.
  { intros j c Hj. apply chunks_nth in Hj as [Hj ->].
    pose proof (slice_piece X batch_size j Hb
                  (num_chunks_tight _ _ _ Hbn Hj)) as E.
    now rewrite !Z.add_0_l in E. }
  split.
  { intros j c Hj Hlast. unfold len.
    rewrite (chunks_full _ _ _ _ Hbn Hj Hlast). lia. }
  split.
  { intros c Hc. apply (chunks_nonempty _ _ _ Hbn) in Hc.
    unfold len. lia. }
  intros rs Ers. split.
  - now apply (calls_transform_parallel self X rs).
  - rewrite outcome_transform_parallel by assumption.
    fold batch_size. now rewrite Ers.
Qed.

(** C3 on five molecules and two workers: batches of two, three
    chunks. *)
Lemma C3_chunk_partition_witness :
  let self := mk_Avalon 4 false false 2 in
  1 < n_jobs self
  /\ Z.max (len Demo.five / n_jobs self) 1 = 2
  /\ exists args : list (list pyobj),
       concat args = Demo.five
       /\ len args = 3
       /\ (forall c, In c args -> 1 <= len c <= 2)
       /\ calls (transform self Demo.five) = args
       /\ exists M, outcome (transform self Demo.five) = OK M.
Proof.
  intros self.
  assert (HW : 1 < n_jobs self) by (simpl; lia).
  split; [exact HW|]. split; [reflexivity|].
  destruct (C3_chunk_partition self Demo.five HW)
    as [args [Et [Hcat [Hlen [_ [_ [Hsz Hok]]]]]]].
  assert (Hrs : exists rs, rmap (_calculate_fingerprint self) args = OK rs).
  { pose proof (f_equal outcome Et) as E.
    rewrite outcome_bind, outcome_Parallel in E.
    destruct (rmap _ args) as [rs|e]; [now exists rs|].
    vm_compute in E. discriminate. }
  destruct Hrs as [rs Hrs].
  exists args. repeat split; try assumption; try (now apply Hsz).
  - now apply (Hok rs).
  - eexists. vm_compute. reflexivity.
Defined.

(** C4, as stated, fails: on the input
    [["not_a_valid_structure!!"]], with a parser that rejects that
    string, [_validate_input] returns [[None]] without raising, and
    [transform] hands the input to the computation unit, with one worker
    as with two. *)
Lemma C4_counterexample :
  MolFromSmiles "not_a_valid_structure!!" = None
  /\ _validate_input Demo.invalid = OK [py_None]
  /\ calls (transform (mk_Avalon 512 false false 1) Demo.invalid)
     = [Demo.invalid]
  /\ calls (transform (mk_Avalon 512 false false 2) Demo.invalid)
     = [Demo.invalid].
Proof. repeat split; vm_compute; reflexivity. Qed.

(** C4, amended. For an input that holds a string [s] of exact type
    [str] which does not parse: [_validate_input] raises nothing on its
    account. It raises only the ValueError of the type test, and only
    when some entry is neither a [Mol] nor an exact [str]; otherwise it
    returns a list as long as the input with [None] in it. [transform]
    validates nothing itself: with one worker it passes the whole input
    to the computation unit, with more workers the first chunk
    [X[0:batch_size]] is dispatched whatever the entries are, so that an
    error for [s] can only arise inside the unit, after dispatch. *)
Theorem C4_validation_after_dispatch `{RDKit} {Self : Type}
  `{!FingerprintTransformer Self} (self : Self) (X : list pyobj)
  (s : string) :
  In (py_str None s) X ->
  MolFromSmiles s = None ->
  (forall e, _validate_input X = Raise e ->
     e = ValueError "Passed value is neither rdkit.Chem.rdChem.Mol nor SMILES"
     /\ exists x, In x X /\ isinstance_Mol x = false /\ type_eq_str x = false)
  /\ ((forall x, In x X -> isinstance_Mol x || type_eq_str x = true) ->
      exists Y, _validate_input X = OK Y
                /\ length Y = length X /\ In py_None Y)
  /\ (n_jobs self = 1 ->
      transform self X = mk_run [X] (_calculate_fingerprint self X))
  /\ (n_jobs self <> 1 -> n_jobs self <> 0 ->
      exists rest,
        calls (transform self X)
        = slice X 0 (Z.max (len X / n_jobs self) 1) :: rest).
Proof.
  intros Hin Hparse. split; [|split; [|split]].
  - intros e Ee.
    destruct (validate_cases X) as [Hall|[x [Hx [Hm Hs]]]].
    + rewrite (validate_accepts X Hall) in Ee. discriminate.
    + rewrite (validate_rejects X x Hx Hm Hs) in Ee.
      injection Ee as <-. split; [reflexivity|now exists x].
  - intros Hall. rewrite (validate_accepts X Hall).
    eexists; split; [reflexivity|]. split; [apply length_map|].
    apply in_map_iff. exists (py_str None s). now rewrite Hparse.
  - apply transform_serial.
  - intros H1 H0. apply first_chunk_dispatched; try assumption.
    intros ->. contradiction.
Qed.

(** C4 on a three-entry input whose second string does not parse. *)
Lemma C4_validation_after_dispatch_witness :
  let self := mk_Avalon 4 false false 2 in
  In (py_str None "not_a_valid_structure!!") Demo.mixed
  /\ MolFromSmiles "not_a_valid_structure!!" = None
  /\ (exists Y, _validate_input Demo.mixed = OK Y
                /\ length Y = 3%nat /\ In py_None Y)
  /\ exists rest,
       calls (transform self Demo.mixed)
       = slice Demo.mixed 0 (Z.max (len Demo.mixed / n_jobs self) 1) :: rest.
Proof.
  intros self.
  assert (Hin : In (py_str None "not_a_valid_structure!!") Demo.mixed)
    by (right; left; reflexivity).
  assert (Hp : MolFromSmiles "not_a_valid_structure!!" = None)
    by reflexivity.
  destruct (C4_validation_after_dispatch self Demo.mixed _ Hin Hp)
    as [_ [Hok [_ Hcalls]]].
  repeat split; try assumption.
  - apply Hok. intros x Hx.
    repeat (destruct Hx as [<-|Hx]; [reflexivity|]). destruct Hx.
  - apply Hcalls; simpl; lia.
Defined.

(** C5, as stated, fails: every entry of [["CC",
    "not_a_valid_structure!!", <Mol>]] is a string or a handle, and
    validation returns, but the second of the returned handles is
    [None]. *)
Lemma C5_counterexample :
  (forall x, In x Demo.mixed ->
     isinstance_str x = true \/ isinstance_Mol x = true)
  /\ _validate_input Demo.mixed
     = OK [@py_Mol Demo.rdkit None "CC"; py_None; @py_Mol Demo.rdkit None "O"]
  /\ exists Y y, _validate_input Demo.mixed = OK Y
                 /\ nth_error Y 1 = Some y /\ is_None y = true.
Proof.
  split; [|split].
  - intros x Hx.
    repeat (destruct Hx as [<-|Hx]; [simpl; auto|]). destruct Hx.
  - reflexivity.
  - exists [@py_Mol Demo.rdkit None "CC"; py_None; @py_Mol Demo.rdkit None "O"], py_None.
    repeat split; reflexivity.
Qed.

(** C5, amended. For every sequence whose entries are each an instance
    of [Mol] or of exact type [str], [_validate_input] returns a list of
    the same length in the same order: a [Mol] is kept as it is, a string
    [s] is replaced by [MolFromSmiles(s)]. A returned entry is [None]
    exactly when it stands for a string that did not parse; so all the
    returned handles are non-null when every string of the input
    parses. *)
Theorem C5_validation_shape `{RDKit} (X : list pyobj) :
  (forall x, In x X -> isinstance_Mol x || type_eq_str x = true) ->
  exists Y,
    _validate_input X = OK Y
    /\ length Y = length X
    /\ (forall i x, nth_error X i = Some x ->
          exists y,
            nth_error Y i = Some y
            /\ (isinstance_Mol x = true -> y = x)
            /\ (forall s, x = py_str None s -> y = handle (MolFromSmiles s))
            /\ (is_None y = true
                <-> exists s, x = py_str None s /\ MolFromSmiles s = None))
    /\ ((forall s, In (py_str None s) X -> MolFromSmiles s <> None) ->
        forall y, In y Y -> is_None y = false /\ isinstance_Mol y = true).
Proof.
  intros Hall. rewrite (validate_accepts X Hall).
  set (conv := fun x : pyobj => match x with
                                | py_str None s => handle (MolFromSmiles s)
                                | _ => x
                                end).
  assert (Hconv : forall x, isinstance_Mol x || type_eq_str x = true ->
            (isinstance_Mol x = true -> conv x = x)
            /\ (forall s, x = py_str None s -> conv x = handle (MolFromSmiles s))
            /\ (is_None (conv x) = true
                <-> exists s, x = py_str None s /\ MolFromSmiles s = None)).
  { intros x Hx. destruct x as [o s|o m| |z]; try discriminate.
    - destruct o as [c|]; [discriminate|]. cbn.
      split; [discriminate|]. split.
      + now intros s' [= <-].
      + split.
        * destruct (MolFromSmiles s) eqn:E; [discriminate|]. now exists s.
        * intros [s' [[= <-] E]]. now rewrite E.
    - cbn. split; [reflexivity|]. split; [discriminate|].
      split; [discriminate|]. intros [s' [E _]]; discriminate. }
  eexists; split; [reflexivity|]. split; [apply length_map|]. split.
  - intros i x Hi. exists (conv x).
    split; [now apply map_nth_error|].
    apply Hconv, Hall. now apply nth_error_In with i.
  - intros Hparse y Hy. apply in_map_iff in Hy as [x [<- Hx]].
    specialize (Hall x Hx).
    destruct x as [o s|o m| |z]; try discriminate.
    + destruct o as [c|]; [discriminate|]. cbn.
      specialize (Hparse s Hx). now destruct (MolFromSmiles s).
    + now split.
Qed.

(** C5 on the four strings of the docstrings, which all parse. *)
Lemma C5_validation_shape_witness :
  (forall x, In x Demo.smiles -> isinstance_Mol x || type_eq_str x = true)
  /\ exists Y,
       _validate_input Demo.smiles = OK Y
       /\ length Y = 4%nat
       /\ forall y, In y Y -> is_None y = false /\ isinstance_Mol y = true.
Proof.
  assert (Hall : forall x, In x Demo.smiles ->
                   isinstance_Mol x || type_eq_str x = true).
  { intros x Hx.
    repeat (destruct Hx as [<-|Hx]; [reflexivity|]). destruct Hx. }
  split; [exact Hall|].
  destruct (C5_validation_shape Demo.smiles Hall) as [Y [EY [HL [_ Hnn]]]].
  exists Y. repeat split; try assumption; apply Hnn; try assumption;
    intros s Hs; repeat (destruct Hs as [[= <-]|Hs]; [discriminate|]);
    destruct Hs.
Defined.

(** C6, the parallel path. With an effective worker count other than 1
    (and other than 0), [transform([])] makes no chunk, calls the unit
    not at all, and fails on [results[0]] with an IndexError. *)
Theorem C6_empty_input_parallel `{RDKit} {Self : Type}
  `{!FingerprintTransformer Self} (self : Self) :
  n_jobs self <> 1 ->
  n_jobs self <> 0 ->
  transform self []
  = mk_run [] (Raise (IndexError "list index out of range")).
Proof.
  intros H1 H0. now rewrite transform_parallel by assumption.
Qed.

(** C6 on an Avalon transformer with two workers. *)
Lemma C6_empty_input_parallel_witness :
  let self := mk_Avalon 512 false false 2 in
  n_jobs self <> 1
  /\ n_jobs self <> 0
  /\ transform self []
     = mk_run [] (Raise (IndexError "list index out of range")).
Proof.
  intros self.
  assert (H1 : n_jobs self <> 1) by discriminate.
  assert (H0 : n_jobs self <> 0) by discriminate.
  split; [exact H1|]. split; [exact H0|].
  exact (C6_empty_input_parallel self H1 H0).
Defined.

(** C7, as stated, fails: a transformer configured with [sparse=False]
    whose unit hands back [csr_array]s gets its chunks stacked by
    [sparse.vstack], because [results[0]] is a [csr_array];
    [np.concatenate], which the configuration calls for, would have
    raised on the same results. *)
Lemma C7_counterexample :
  let self := Demo.mk_Unheeding false 2 in
  Demo.uh_sparse self = false
  /\ exists results m,
       rmap (_calculate_fingerprint self)
            (chunks 2 Demo.smiles) = OK results
       /\ outcome (transform self Demo.smiles) = sparse_vstack results
       /\ sparse_vstack results = OK (Sparse m)
       /\ np_concatenate results
          = Raise (ValueError "zero-dimensional arrays cannot be concatenated").
Proof.
  intros self. split; [reflexivity|].
  eexists. eexists. repeat split; vm_compute; reflexivity.
Qed.

(** C7, amended. In the parallel path the aggregator is chosen once per
    call, from the runtime type of the first chunk's output:
    [sparse.vstack] when [results[0]] is a [csr_array], [np.concatenate]
    otherwise. For a row-wise unit built on the [sparse] option (as
    Avalon's is) every chunk output is a [csr_array] exactly when the
    option is set, so the choice agrees with the option, and the
    returned matrix is sparse exactly when the option is set: a sparse
    result is never made dense. *)
Theorem C7_aggregator_choice `{RDKit} {Self : Type}
  `{!FingerprintTransformer Self} (self : Self) (X : list pyobj)
  (results : list array) :
  n_jobs self <> 1 ->
  n_jobs self <> 0 ->
  rmap (_calculate_fingerprint self)
       (chunks (Z.to_nat (Z.max (len X / n_jobs self) 1)) X) = OK results ->
  (forall r0, hd_error results = Some r0 ->
     outcome (transform self X)
     = if isinstance_csr_array r0
       then sparse_vstack results
       else np_concatenate results)
  /\ (forall f k sp, rowwise self f k sp -> X <> [] ->
        Forall (fun r => isinstance_csr_array r = sp) results
        /\ exists M, outcome (transform self X) = OK M
                     /\ isinstance_csr_array M = sp).
Proof.
  intros H1 H0 Eres.
  rewrite outcome_transform_parallel by assumption. rewrite Eres.
  cbn [rbind]. split.
  - intros r0 Hr0. destruct results as [|r rest]; [discriminate|].
    injection Hr0 as ->. reflexivity.
  - intros f k sp R Hne.
    set (b := Z.to_nat (Z.max (len X / n_jobs self) 1)) in *.
    assert (Hb : (1 <= b)%nat) by (unfold b; lia).
    rewrite (units_on_chunks self f k sp R) in Eres
      by (intros c Hc Ec; apply (chunks_nonempty b X c Hb) in Hc;
          subst c; simpl in Hc; lia).
    destruct (rmap (rmap f) (chunks b X)) as [rss|e] eqn:E;
      [|discriminate].
    injection Eres as <-. split.
    + apply Forall_forall. intros r Hr.
      apply in_map_iff in Hr as [rows [<- _]]. apply isinstance_assemble.
    + exists (assemble sp k (concat rss)).
      split; [|apply isinstance_assemble].
      apply aggregate_assemble. intros ->.
      apply rmap_length in E. rewrite length_chunks in E.
      pose proof (num_chunks_pos (length X) b).
      destruct X; [congruence|simpl in *; lia].
Qed.

(** C7 on a sparse Avalon transformer with two workers. *)
Lemma C7_aggregator_choice_witness :
  let self := mk_Avalon 4 false true 2 in
  n_jobs self <> 1
  /\ n_jobs self <> 0
  /\ exists results,
       rmap (_calculate_fingerprint self) (chunks 2 Demo.five) = OK results
       /\ Forall (fun r => isinstance_csr_array r = true) results
       /\ exists M, outcome (transform self Demo.five) = OK M
                    /\ isinstance_csr_array M = true.
Proof.
  intros self.
  assert (H1 : n_jobs self <> 1) by discriminate.
  assert (H0 : n_jobs self <> 0) by discriminate.
  split; [exact H1|]. split; [exact H0|].
  destruct (rmap (_calculate_fingerprint self) (chunks 2 Demo.five))
    as [results|e] eqn:E; [|vm_compute in E; discriminate].
  exists results. split; [reflexivity|].
  destruct (C7_aggregator_choice self Demo.five results H1 H0 E)
    as [_ Hrow].
  apply (Hrow (Avalon_entry_fp self) 4%nat true (Avalon_rowwise self)).
  discriminate.
Defined.

(** C8, as stated, fails: a unit that makes two columns for the first
    two chunks and one column for the last gets a ValueError out of
    [np.concatenate] (dense) or out of [sparse.vstack] (sparse); no
    ShapeError is raised. *)
Lemma C8_counterexample :
  outcome (transform (Demo.mk_Unstable false 2) Demo.five)
  = Raise (ValueError "all the input array dimensions except for the concatenation axis must match exactly")
  /\ outcome (transform (Demo.mk_Unstable true 2) Demo.five)
     = Raise (ValueError "Mismatching dimensions along axis 1")
  /\ exn_class (ValueError "Mismatching dimensions along axis 1")
     <> "ShapeError".
Proof. repeat split; try (vm_compute; reflexivity). discriminate. Qed.

(** C8, amended. [transform] has no column check of its own. When the
    chunk outputs are all two-dimensional dense arrays, or all sparse,
    and one of them has a column count other than the first one's, the
    call fails with the ValueError that [np.concatenate], respectively
    [sparse.vstack], raises. *)
Theorem C8_inconsistent_columns `{RDKit} {Self : Type}
  `{!FingerprintTransformer Self} (self : Self) (X : list pyobj)
  (results : list array) (r0 r : array) :
  n_jobs self <> 1 ->
  n_jobs self <> 0 ->
  rmap (_calculate_fingerprint self)
       (chunks (Z.to_nat (Z.max (len X / n_jobs self) 1)) X) = OK results ->
  hd_error results = Some r0 ->
  Forall (fun r' => isinstance_csr_array r' = isinstance_csr_array r0
                    /\ ncols r' <> None) results ->
  In r results ->
  ncols r <> ncols r0 ->
  outcome (transform self X) = aggregate results
  /\ aggregate results
     = Raise (ValueError
                (if isinstance_csr_array r0
                 then "Mismatching dimensions along axis 1"
                 else "all the input array dimensions except for the concatenation axis must match exactly")).
Proof.
  intros H1 H0 Eres Hhd Hall Hin Hneq.
  rewrite outcome_transform_parallel by assumption. rewrite Eres.
  cbn [rbind]. split; [reflexivity|].
  unfold aggregate.
  replace (getitem results 0) with (OK r0)
    by (destruct results; [discriminate|]; now injection Hhd as ->).
  cbn [rbind]. destruct (isinstance_csr_array r0) eqn:Ek.
  - apply (vstack_mismatch results r0 r); try assumption.
    eapply Forall_impl; [|exact Hall]. now intros a [Ea _].
  - now apply (concatenate_mismatch results r0 r).
Qed.

(** C8 on chunk outputs of two, two and one columns. *)
Lemma C8_inconsistent_columns_witness :
  let self := Demo.mk_Unstable false 2 in
  n_jobs self <> 1
  /\ n_jobs self <> 0
  /\ exists msg,
       outcome (transform self Demo.five) = Raise (ValueError msg).
Proof.
  intros self.
  assert (H1 : n_jobs self <> 1) by discriminate.
  assert (H0 : n_jobs self <> 0) by discriminate.
  split; [exact H1|]. split; [exact H0|].
  set (r0 := Dense (mk_ndarray [2%nat; 2%nat] [1; 1; 1; 1])).
  set (r := Dense (mk_ndarray [1%nat; 1%nat] [1])).
  destruct (C8_inconsistent_columns self Demo.five [r0; r0; r] r0 r H1 H0)
    as [Eo Ea].
  - reflexivity.
  - reflexivity.
  - repeat constructor; discriminate.
  - right; right; left; reflexivity.
  - discriminate.
  - eexists. rewrite Eo. exact Ea.
Defined.

(** C9. [fit] hands back the transformer it was given, whatever [X] and
    [y] are, and [fit_transform(X, y)] is [transform(X)]; in particular
    transforming after fitting is transforming. *)
Theorem C9_fit_is_noop `{RDKit} {Self : Type}
  `{!FingerprintTransformer Self} (self : Self) (X : list pyobj)
  (y : option (list Z)) :
  fit self X y = self
  /\ fit_transform self X y = transform self X
  /\ forall X', transform (fit self X y) X' = transform self X'.
Proof. repeat split. Qed.

(** C10. Whenever the input holds an entry whose type is a strict
    subclass of [str] (so that [isinstance(x, str)] holds but
    [type(x) == str] does not, and it is not a [Mol]), [_validate_input]
    raises the ValueError of the type test. *)
Theorem C10_str_subclass_rejected `{RDKit} (X : list pyobj)
  (cls s : string) :
  In (py_str (Some cls) s) X ->
  isinstance_str (py_str (Some cls) s) = true
  /\ type_eq_str (py_str (Some cls) s) = false
  /\ _validate_input X
     = Raise (ValueError
                "Passed value is neither rdkit.Chem.rdChem.Mol nor SMILES").
Proof.
  intros Hin. repeat split.
  now apply (validate_rejects X (py_str (Some cls) s)).
Qed.

(** C10 on a list whose second entry is an instance of a subclass of
    [str]. *)
Lemma C10_str_subclass_rejected_witness :
  In (py_str (Some "Smiles") "CC") Demo.subclassed
  /\ _validate_input Demo.subclassed
     = Raise (ValueError
                "Passed value is neither rdkit.Chem.rdChem.Mol nor SMILES").
Proof.
  assert (Hin : In (py_str (Some "Smiles") "CC") Demo.subclassed)
    by (right; left; reflexivity).
  split; [exact Hin|].
  apply (C10_str_subclass_rejected Demo.subclassed "Smiles" "CC" Hin).
Defined.

(** * Further properties of the source *)

(** ** More about the chunks of [transform] *)

Lemma pieces_of_one {A : Type} (X : list A) :
  map (fun k => firstn 1 (skipn (k * 1) X)) (seq 0 (length X))
  = map (fun x => [x]) X.
Proof.
  induction X as [|a X IH]; [reflexivity|].
  cbn [length seq map]. f_equal.
  rewrite <- seq_shift, map_map, <- IH.
  apply map_ext. intros k. now rewrite !Nat.mul_1_r.
Qed.

Lemma chunks_one {A : Type} (X : list A) :
  chunks 1 X = map (fun x => [x]) X.
Proof.
  unfold chunks, num_chunks. rewrite <- pieces_of_one.
  destruct (length X) as [|n] eqn:E; [reflexivity|].
  cbn [Nat.eqb]. do 2 f_equal.
  rewrite Nat.div_1_r. lia.
Qed.

Lemma rmap_Raise {A B : Type} (f : A -> result B) :
  forall l e, rmap f l = Raise e -> exists x, In x l /\ f x = Raise e.
Proof.
  induction l as [|a l IH]; simpl; intros e E; [discriminate|].
  destruct (f a) as [b|e'] eqn:Ea; simpl in E.
  - destruct (rmap f l) as [bs|e''] eqn:El; simpl in E; [discriminate|].
    injection E as <-. destruct (IH e'' eq_refl) as [x [Hx Ex]].
    exists x; split; [now right|assumption].
  - injection E as <-. exists a; split; [now left|assumption].
Qed.

Lemma rmap_fails {A B : Type} (f : A -> result B) :
  forall l x e, In x l -> f x = Raise e -> exists e', rmap f l = Raise e'.
Proof.
  intros l x e Hin Ex. destruct (rmap f l) as [ys|e'] eqn:E.
  - destruct (In_nth_error _ _ Hin) as [i Hi].
    destruct (rmap_nth f l ys i x E Hi) as [y [Ey _]]. congruence.
  - now exists e'.
Qed.

Section MoreChunks.
Context `{RDKit} {Self : Type} `{!FingerprintTransformer Self}.

Lemma calls_Parallel_length (self : Self) (w : Z) :
  forall cs,
    (length (calls (Parallel w (map (invoke self) cs))) <= length cs)%nat.
Proof.
  induction cs as [|c cs IH]; [simpl; lia|].
  cbn [map Parallel]. unfold bind at 1. cbn [invoke outcome calls].
  destruct (_calculate_fingerprint self c) as [r|e]; cbn [calls app length];
    [|lia].
  unfold bind at 1.
  destruct (outcome (Parallel w (map (invoke self) cs)));
    cbn [calls ret]; rewrite ?app_nil_r; lia.
Qed.

Lemma calls_transform_length (self : Self) (X : list pyobj) :
  n_jobs self <> 1 -> n_jobs self <> 0 ->
  (length (calls (transform self X))
   <= num_chunks (length X) (Z.to_nat (Z.max (len X / n_jobs self) 1)))%nat.
Proof.
  intros H1 H0. rewrite transform_parallel by assumption.
  rewrite <- length_chunks.
  set (cs := chunks _ X).
  pose proof (calls_Parallel_length self (n_jobs self) cs) as Hle.
  unfold bind at 1.
  destruct (outcome (Parallel (n_jobs self) (map (invoke self) cs)));
    cbn [calls lift]; rewrite ?app_nil_r; exact Hle.
Qed.

End MoreChunks.

Lemma chunk_count_bound (N W : Z) :
  1 <= W -> 1 <= N ->
  (N - 1) / Z.max (N / W) 1 + 1 <= 2 * W - 1
  /\ (N - 1) / Z.max (N / W) 1 + 1 <= N.
Proof.
  intros HW HN.
  pose proof (Z.div_mod N W ltac:(lia)) as Hd.
  pose proof (Z.mod_pos_bound N W ltac:(lia)) as Hm.
  assert (Hq : 0 <= N / W) by (apply Z.div_pos; lia).
  set (b := Z.max (N / W) 1). assert (Hb : 1 <= b) by (unfold b; lia).
  split.
  - assert ((N - 1) / b < 2 * W - 1); [|lia].
    apply Z.div_lt_upper_bound; [lia|].
    destruct (Z_le_gt_dec 1 (N / W)) as [Hge|Hlt].
    + replace b with (N / W) by (unfold b; lia). nia.
    + replace b with 1 by (unfold b; lia). nia.
  - assert ((N - 1) / b <= N - 1); [|lia].
    apply Z.div_le_upper_bound; [lia|]. nia.
Qed.

(** X1. When the workers are at least half as many as the entries
    ([N < 2 * W]), or the worker count is negative, the batch size is 1:
    every entry of the input is dispatched alone, in order. *)
Theorem X1_one_entry_per_chunk `{RDKit} {Self : Type}
  `{!FingerprintTransformer Self} (self : Self) (X : list pyobj) :
  n_jobs self <> 1 ->
  n_jobs self <> 0 ->
  n_jobs self < 0 \/ len X < 2 * n_jobs self ->
  transform self X
  = (results <- Parallel (n_jobs self)
                  (map (invoke self) (map (fun x => [x]) X)) ;;
     lift (aggregate results))
  /\ (forall rs,
        rmap (_calculate_fingerprint self) (map (fun x => [x]) X) = OK rs ->
        calls (transform self X) = map (fun x => [x]) X).
Proof.
  intros H1 H0 Hfew.
  assert (Hb : Z.to_nat (Z.max (len X / n_jobs self) 1) = 1%nat).
  { assert (len X / n_jobs self <= 1); [|lia].
    assert (0 <= len X) by (unfold len; lia).
    destruct Hfew as [Hneg|Hfew].
    - pose proof (Z.div_mod (len X) (n_jobs self) H0) as Hd.
      pose proof (Z.mod_neg_bound (len X) (n_jobs self) Hneg) as Hm.
      nia.
    - assert (len X / n_jobs self < 2); [|lia].
      apply Z.div_lt_upper_bound; lia. }
  split.
  - rewrite transform_parallel by assumption.
    now rewrite Hb, chunks_one.
  - intros rs Ers. rewrite <- chunks_one, <- Hb in Ers |- *.
    now apply (calls_transform_parallel self X rs).
Qed.

(** X1 on four molecules and three workers. *)
Lemma X1_one_entry_per_chunk_witness :
  let self := mk_Avalon 4 false false 3 in
  (n_jobs self < 0 \/ len Demo.smiles < 2 * n_jobs self)
  /\ calls (transform self Demo.smiles) = map (fun x => [x]) Demo.smiles.
Proof.
  intros self.
  assert (Hfew : n_jobs self < 0 \/ len Demo.smiles < 2 * n_jobs self)
    by (right; vm_compute; reflexivity).
  split; [exact Hfew|].
  destruct (X1_one_entry_per_chunk self Demo.smiles) as [_ Hcalls];
    try discriminate; [exact Hfew|].
  destruct (rmap (_calculate_fingerprint self)
                 (map (fun x => [x]) Demo.smiles)) as [rs|e] eqn:E;
    [|vm_compute in E; discriminate].
  now apply (Hcalls rs).
Defined.

(** X2. When the worker count [W > 1] divides the input length,
    [N = W * q] with [q >= 1], the input is split into exactly [W]
    chunks of exactly [q] entries each. *)
Theorem X2_balanced_chunks `{RDKit} {Self : Type}
  `{!FingerprintTransformer Self} (self : Self) (X : list pyobj) (q : Z) :
  1 < n_jobs self ->
  1 <= q ->
  len X = n_jobs self * q ->
  exists args : list (list pyobj),
    transform self X
    = (results <- Parallel (n_jobs self) (map (invoke self) args) ;;
       lift (aggregate results))
    /\ concat args = X
    /\ len args = n_jobs self
    /\ forall c, In c args -> len c = q.
Proof.
  intros HW Hq HN.
  assert (Hb : Z.max (len X / n_jobs self) 1 = q).
  { rewrite HN, Z.mul_comm, Z.div_mul by lia. lia. }
  assert (Hqn : (1 <= Z.to_nat q)%nat) by lia.
  assert (HNn : length X = (Z.to_nat (n_jobs self) * Z.to_nat q)%nat).
  { unfold len in HN. apply Nat2Z.inj.
    rewrite Nat2Z.inj_mul, !Z2Nat.id by lia. exact HN. }
  assert (Hcount : num_chunks (length X) (Z.to_nat q)
                   = Z.to_nat (n_jobs self)).
  { unfold num_chunks.
    destruct (length X =? 0)%nat eqn:E0; [apply Nat.eqb_eq in E0; nia|].
    apply Nat.eqb_neq in E0.
    set (w := Z.to_nat (n_jobs self)) in *. set (b := Z.to_nat q) in *.
    assert (Hdiv : ((length X - 1) / b = w - 1)%nat).
    { symmetry. apply (Nat.div_unique _ _ _ (b - 1)); [lia|].
      assert (1 <= w)%nat by (unfold w; lia). nia. }
    rewrite Hdiv. lia. }
  exists (chunks (Z.to_nat q) X).
  split; [rewrite <- Hb; apply transform_parallel; lia|].
  split; [now apply concat_chunks|].
  split; [unfold len; rewrite length_chunks, Hcount; lia|].
  intros c Hc. destruct (In_nth_error _ _ Hc) as [k Hk].
  apply chunks_nth in Hk as [Hk ->]. rewrite Hcount in Hk.
  unfold len. rewrite length_firstn, length_skipn. nia.
Qed.

(** X2 on four molecules and two workers. *)
Lemma X2_balanced_chunks_witness :
  let self := mk_Avalon 4 false false 2 in
  len Demo.smiles = n_jobs self * 2
  /\ exists args : list (list pyobj),
       concat args = Demo.smiles
       /\ len args = 2
       /\ forall c, In c args -> len c = 2.
Proof.
  intros self.
  assert (HN : len Demo.smiles = n_jobs self * 2) by reflexivity.
  split; [exact HN|].
  destruct (X2_balanced_chunks self Demo.smiles 2) as [args [_ Hargs]];
    [reflexivity|discriminate|exact HN|].
  now exists args.
Defined.

(** X3. With [W > 1] workers, [transform] never calls the computation
    unit more than [2 * W - 1] times, nor more often than the input has
    entries. *)
Theorem X3_chunk_count_bound `{RDKit} {Self : Type}
  `{!FingerprintTransformer Self} (self : Self) (X : list pyobj) :
  1 < n_jobs self ->
  len (calls (transform self X)) <= 2 * n_jobs self - 1
  /\ len (calls (transform self X)) <= len X.
Proof.
  intros HW.
  assert (H1 : n_jobs self <> 1) by lia.
  assert (H0 : n_jobs self <> 0) by lia.
  pose proof (calls_transform_length self X H1 H0) as Hle.
  set (b := Z.max (len X / n_jobs self) 1) in *.
  assert (Hb : 1 <= b) by (unfold b; lia).
  rewrite <- (range_count _ _ Hb) in Hle.
  unfold len at 1 3.
  destruct (0 <? Z.of_nat (length X)) eqn:E0.
  - apply Z.ltb_lt in E0.
    destruct (chunk_count_bound (len X) (n_jobs self)) as [B1 B2];
      [lia|unfold len; lia|].
    fold b in B1, B2. unfold len in B1, B2.
    assert (0 <= (Z.of_nat (length X) - 1) / b) by (apply Z.div_pos; lia).
    replace (Z.of_nat (length X) - 0 - 1) with (Z.of_nat (length X) - 1)
      in Hle by lia.
    unfold len. lia.
  - apply Z.ltb_ge in E0. simpl in Hle. unfold len. lia.
Qed.

(** X3 on three molecules and two workers, where the bound is met:
    three calls. *)
Lemma X3_chunk_count_bound_witness :
  let self := mk_Avalon 4 false false 2 in
  let X := firstn 3 Demo.smiles in
  1 < n_jobs self
  /\ len (calls (transform self X)) = 3
  /\ len (calls (transform self X)) <= 2 * n_jobs self - 1.
Proof.
  intros self X.
  assert (HW : 1 < n_jobs self) by reflexivity.
  split; [exact HW|]. split; [reflexivity|].
  exact (proj1 (X3_chunk_count_bound self X HW)).
Defined.

(** X4. All or nothing, in the parallel path. If [transform] returns a
    matrix then the unit succeeded on every chunk, every chunk was
    dispatched, the dispatched chunks put together are the input, and
    the matrix is the aggregate of the chunk outputs. If the unit raises
    on some chunk then [transform] raises an exception that the unit
    raised on one of the chunks; no partial matrix is returned. *)
Theorem X4_all_or_nothing `{RDKit} {Self : Type}
  `{!FingerprintTransformer Self} (self : Self) (X : list pyobj) :
  n_jobs self <> 1 ->
  n_jobs self <> 0 ->
  let args := chunks (Z.to_nat (Z.max (len X / n_jobs self) 1)) X in
  (forall M, outcome (transform self X) = OK M ->
     concat (calls (transform self X)) = X
     /\ calls (transform self X) = args
     /\ exists rs, rmap (_calculate_fingerprint self) args = OK rs
                   /\ aggregate rs = OK M)
  /\ (forall c e, In c args -> _calculate_fingerprint self c = Raise e ->
        exists c' e',
          In c' args
          /\ _calculate_fingerprint self c' = Raise e'
          /\ outcome (transform self X) = Raise e').
Proof.
  intros H1 H0 args. split.
  - intros M EM.
    rewrite outcome_transform_parallel in EM by assumption. fold args in EM.
    destruct (rmap (_calculate_fingerprint self) args) as [rs|e] eqn:Ers;
      [|discriminate].
    cbn [rbind] in EM.
    rewrite (calls_transform_parallel self X rs H1 H0 Ers). fold args.
    split; [apply concat_chunks; lia|].
    split; [reflexivity|]. now exists rs.
  - intros c e Hc Ec.
    destruct (rmap_fails _ args c e Hc Ec) as [e' Ee'].
    destruct (rmap_Raise _ args e' Ee') as [c' [Hc' Ec']].
    exists c', e'. split; [assumption|]. split; [assumption|].
    rewrite outcome_transform_parallel by assumption. fold args.
    now rewrite Ee'.
Qed.

(** X4 on an input whose second chunk holds a string that does not
    parse. *)
Lemma X4_all_or_nothing_witness :
  let self := mk_Avalon 4 false false 3 in
  n_jobs self <> 1
  /\ n_jobs self <> 0
  /\ exists c' e',
       In c' (chunks 1 Demo.mixed)
       /\ _calculate_fingerprint self c' = Raise e'
       /\ outcome (transform self Demo.mixed) = Raise e'.
Proof.
  intros self.
  assert (H1 : n_jobs self <> 1) by discriminate.
  assert (H0 : n_jobs self <> 0) by discriminate.
  split; [exact H1|]. split; [exact H0|].
  destruct (X4_all_or_nothing self Demo.mixed H1 H0) as [_ Hfail].
  apply (Hfail [py_str None "not_a_valid_structure!!"]
               (mk_exn "ValidationError" "not_a_valid_structure!!")).
  - right; left; reflexivity.
  - reflexivity.
Defined.

(** ** The Avalon transformer *)

Lemma ncols_assemble (sp : bool) (k : nat) (rows : list (list Z)) :
  ncols (assemble sp k rows) = Some k.
Proof. now destruct sp. Qed.

Lemma Avalon_outcome `{RDKit} (self : AvalonFingerprint) (X : list pyobj) :
  n_jobs self <> 0 -> X <> [] ->
  outcome (transform self X)
  = rbind (rmap (Avalon_entry_fp self) X)
          (fun rows => OK (assemble (sparse self) (fp_size self) rows)).
Proof.
  intros H0 Hne.
  rewrite (parallel_is_serial self _ _ _ (Avalon_rowwise self) X H0 Hne).
  destruct (rmap (Avalon_entry_fp self) X) as [rows|e] eqn:E.
  - now apply (unit_rows self _ _ _ (Avalon_rowwise self)).
  - now apply (unit_raise self _ _ _ (Avalon_rowwise self)).
Qed.

(** X5. Shape of the Avalon output. Whatever the worker count (other
    than 0), whenever [transform] returns a matrix for a non-empty input
    it has one row per entry and [fp_size] columns, and it is a
    [csr_array] exactly when the [sparse] option is set. *)
Theorem X5_Avalon_shape `{RDKit} (self : AvalonFingerprint)
  (X : list pyobj) (M : array) :
  n_jobs self <> 0 ->
  X <> [] ->
  outcome (transform self X) = OK M ->
  nrows M = Some (length X)
  /\ ncols M = Some (fp_size self)
  /\ isinstance_csr_array M = sparse self.
Proof.
  intros H0 Hne EM. rewrite (Avalon_outcome self X H0 Hne) in EM.
  destruct (rmap (Avalon_entry_fp self) X) as [rows|e] eqn:E;
    [|discriminate].
  injection EM as <-.
  rewrite nrows_assemble, ncols_assemble, isinstance_assemble.
  now rewrite (rmap_length _ _ _ E).
Qed.

(** X5 on five molecules, three workers, sparse counts of 512
    entries. *)
Lemma X5_Avalon_shape_witness :
  let self := mk_Avalon 512 true true 3 in
  exists M,
    outcome (transform self Demo.five) = OK M
    /\ nrows M = Some 5%nat
    /\ ncols M = Some 512%nat
    /\ isinstance_csr_array M = true.
Proof.
  intros self.
  destruct (outcome (transform self Demo.five)) as [M|e] eqn:E;
    [|vm_compute in E; discriminate].
  exists M. split; [reflexivity|].
  apply (X5_Avalon_shape self Demo.five M); [discriminate|discriminate|].
  exact E.
Defined.

(** X6. Sparse and dense outputs agree. Two Avalon transformers with the
    same [fp_size] and [count], one dense and one sparse, with any
    worker counts (other than 0): on a non-empty input one returns a
    matrix exactly when the other does, the two matrices have the same
    number of rows and of columns, and every row of the sparse one,
    written out in full, is the same row of the dense one. *)
Theorem X6_sparse_dense_agree `{RDKit} (n : nat) (c : bool) (w w' : Z)
  (X : list pyobj) :
  w <> 0 ->
  w' <> 0 ->
  X <> [] ->
  let dense := mk_Avalon n c false w in
  let sparse := mk_Avalon n c true w' in
  ((exists Md, outcome (transform dense X) = OK Md)
   <-> (exists Ms, outcome (transform sparse X) = OK Ms))
  /\ (forall Md Ms,
        outcome (transform dense X) = OK Md ->
        outcome (transform sparse X) = OK Ms ->
        nrows Ms = nrows Md
        /\ ncols Ms = ncols Md
        /\ forall i, row Ms i = row Md i).
Proof.
  intros Hw Hw' Hne dense sparse.
  rewrite (Avalon_outcome dense X Hw Hne).
  rewrite (Avalon_outcome sparse X Hw' Hne).
  change (Avalon_entry_fp sparse) with (Avalon_entry_fp dense).
  destruct (rmap (Avalon_entry_fp dense) X) as [rows|e] eqn:E; cbn [rbind].
  - split.
    + split; intros _; eexists; reflexivity.
    + intros Md Ms EMd EMs.
      assert (HMd : Md = assemble false n rows)
        by (injection EMd; intros <-; reflexivity).
      assert (HMs : Ms = assemble true n rows)
        by (injection EMs; intros <-; reflexivity).
      rewrite HMd, HMs. clear EMd EMs HMd HMs.
      rewrite !nrows_assemble, !ncols_assemble.
      split; [reflexivity|]. split; [reflexivity|].
      intros i.
      pose proof (rows_width dense _ _ _ (Avalon_rowwise dense) X rows E)
        as Hwd.
      now rewrite !row_assemble.
  - split.
    + split; intros [M EM]; discriminate.
    + intros Md Ms EM; discriminate.
Qed.

(** X6 on five molecules: dense with one worker, sparse with two. *)
Lemma X6_sparse_dense_agree_witness :
  Demo.five <> []
  /\ forall Md Ms,
       outcome (transform (mk_Avalon 8 true false 1) Demo.five) = OK Md ->
       outcome (transform (mk_Avalon 8 true true 2) Demo.five) = OK Ms ->
       nrows Ms = nrows Md
       /\ ncols Ms = ncols Md
       /\ forall i, row Ms i = row Md i.
Proof.
  assert (Hne : Demo.five <> []) by discriminate.
  split; [exact Hne|].
  apply (X6_sparse_dense_agree 8 true 1 2 Demo.five);
    [discriminate|discriminate|exact Hne].
Defined.

(** ** Validating twice *)

(** X7. What [_validate_input] returns can be validated again only if
    every string parsed. If [_validate_input(X)] returns [Y] and every
    string of [X] parses, then [_validate_input(Y)] returns [Y] itself;
    if some string of [X] does not parse, the [None] it left in [Y]
    makes [_validate_input(Y)] raise the ValueError of the type test. *)
Theorem X7_revalidation `{RDKit} (X Y : list pyobj) :
  _validate_input X = OK Y ->
  ((forall s, In (py_str None s) X -> MolFromSmiles s <> None) ->
   _validate_input Y = OK Y)
  /\ (forall s, In (py_str None s) X -> MolFromSmiles s = None ->
      _validate_input Y
      = Raise (ValueError
                 "Passed value is neither rdkit.Chem.rdChem.Mol nor SMILES")).
Proof.
  intros EY.
  destruct (validate_cases X) as [Hall|[x [Hx [Hm Hs]]]];
    [|rewrite (validate_rejects X x Hx Hm Hs) in EY; discriminate].
  rewrite (validate_accepts X Hall) in EY. injection EY as <-.
  split.
  - intros Hparse.
    assert (Hmol : forall y,
              In y (map (fun x => match x with
                                  | py_str None s => handle (MolFromSmiles s)
                                  | _ => x
                                  end) X) ->
              isinstance_Mol y = true).
    { intros y Hy. apply in_map_iff in Hy as [x [<- Hx]].
      specialize (Hall x Hx).
      destruct x as [o s|o m| |z]; try discriminate; [|reflexivity].
      destruct o as [c|]; [discriminate|].
      specialize (Hparse s Hx). now destruct (MolFromSmiles s). }
    rewrite validate_accepts
      by (intros y Hy; now rewrite (Hmol y Hy)).
    f_equal. rewrite <- (map_id (map _ X)) at 2.
    apply map_ext_in. intros y Hy. specialize (Hmol y Hy).
    now destruct y as [o s|o m| |z].
  - intros s Hs Hnone.
    apply (validate_rejects _ py_None); try reflexivity.
    apply in_map_iff. exists (py_str None s). now rewrite Hnone.
Qed.

(** X7 on the four strings of the docstrings, and on an input with a
    string that does not parse. *)
Lemma X7_revalidation_witness :
  (exists Y, _validate_input Demo.smiles = OK Y /\ _validate_input Y = OK Y)
  /\ (exists Y, _validate_input Demo.mixed = OK Y
                /\ exists e, _validate_input Y = Raise e).
Proof.
  split.
  - destruct (_validate_input Demo.smiles) as [Y|e] eqn:E;
      [|vm_compute in E; discriminate].
    exists Y. split; [reflexivity|].
    apply (proj1 (X7_revalidation Demo.smiles Y E)).
    intros s Hs.
    repeat (destruct Hs as [[= <-]|Hs]; [discriminate|]). destruct Hs.
  - destruct (_validate_input Demo.mixed) as [Y|e] eqn:E;
      [|vm_compute in E; discriminate].
    exists Y. split; [reflexivity|]. eexists.
    apply (proj2 (X7_revalidation Demo.mixed Y E) "not_a_valid_structure!!");
      [right; left; reflexivity|reflexivity].
Defined.

(** ** FingerprintGeneratorMixin *)

Section MixinFacts.
Context `{RDKit} {Self : Type} `{!FingerprintGeneratorMixin Self}.

Lemma generate_eq (self : Self) (X : list pyobj) :
  _generate_fingerprints self X
  = rbind (rmap (call_with_mol (selected_method self)) X)
          (build (sparse_output (attributes self))).
Proof.
  unfold _generate_fingerprints, selected_method, build.
  now destruct (String.eqb _ "bit").
Qed.

Lemma selected_width (self : Self) (x : pyobj) (r : list Z) :
  call_with_mol (selected_method self) x = OK r ->
  length r = fpSize (_get_generator self).
Proof.
  unfold call_with_mol, selected_method.
  destruct x as [o s|o m| |z]; try discriminate.
  intros [= <-]. destruct (String.eqb _ "bit");
    [apply GetFingerprintAsNumPy_length
    |apply GetCountFingerprintAsNumPy_length].
Qed.

Lemma call_with_mol_error (method : Mol -> list Z) (x : pyobj) (e : exn) :
  call_with_mol method x = Raise e ->
  e = ArgumentError "Python argument types did not match C++ signature"
  /\ isinstance_Mol x = false.
Proof.
  destruct x as [o s|o m| |z]; cbn; try discriminate;
    intros [= <-]; now split.
Qed.

Lemma generate_rows (self : Self) (X : list pyobj) (rows : list (list Z)) :
  X <> [] ->
  rmap (call_with_mol (selected_method self)) X = OK rows ->
  _generate_fingerprints self X
  = OK (assemble (sparse_output (attributes self))
                 (fpSize (_get_generator self)) rows).
Proof.
  intros Hne E. rewrite generate_eq, E. cbn [rbind].
  apply build_assemble.
  - intros ->. apply rmap_length in E. destruct X; [congruence|discriminate].
  - eapply rmap_Forall; [|exact E]. intros x r. apply selected_width.
Qed.

Lemma generate_as_unit (self : Self) :
  @rowwise _ unit
    (Build_FingerprintTransformer _ unit (fun _ => 2)
       (fun _ => _generate_fingerprints self))
    tt (call_with_mol (selected_method self))
    (fpSize (_get_generator self)) (sparse_output (attributes self)).
Proof.
  split; [apply selected_width|]. intros X. apply generate_eq.
Qed.

End MixinFacts.

(** X8. The constructor of the mixin accepts the two vector types
    ["bit"] and ["count"] and no other, so that on a constructed object
    [_generate_fingerprints], whose test is only [== "bit"], maps
    [GetFingerprintAsNumPy] over its input exactly for ["bit"] and
    [GetCountFingerprintAsNumPy] exactly for ["count"], and builds the
    matrix with the [sparse] option the constructor was given. *)
Theorem X8_vector_type `{RDKit} {Self : Type}
  `{!FingerprintGeneratorMixin Self} (self : Self)
  (fingerprint_type : string) (sp : bool) :
  (forall e, FingerprintGeneratorMixin_init fingerprint_type sp = Raise e ->
     e = AssertionError ""
     /\ fingerprint_type <> "bit" /\ fingerprint_type <> "count")
  /\ (FingerprintGeneratorMixin_init fingerprint_type sp
      = OK (attributes self) ->
      sparse_output (attributes self) = sp
      /\ fp_generator_kwargs (attributes self) = []
      /\ ((fingerprint_type = "bit"
           /\ selected_method self
              = GetFingerprintAsNumPy (_get_generator self)
           /\ forall X,
                _generate_fingerprints self X
                = rbind (rmap (call_with_mol
                                 (GetFingerprintAsNumPy (_get_generator self)))
                              X)
                        (build sp))
          \/ (fingerprint_type = "count"
              /\ selected_method self
                 = GetCountFingerprintAsNumPy (_get_generator self)
              /\ forall X,
                   _generate_fingerprints self X
                   = rbind (rmap (call_with_mol
                                    (GetCountFingerprintAsNumPy
                                       (_get_generator self)))
                                 X)
                           (build sp)))).
Proof.
  unfold FingerprintGeneratorMixin_init. cbn [existsb].
  destruct (String.eqb_spec fingerprint_type "bit") as [Eb|Nb];
    [|destruct (String.eqb_spec fingerprint_type "count") as [Ec|Nc]];
    cbn [orb]; split; try discriminate.
  - intros Ea. injection Ea as Ea.
    unfold selected_method, _generate_fingerprints, build.
    rewrite <- Ea. cbn [sparse_output fp_generator_kwargs result_vector_type].
    split; [reflexivity|]. split; [reflexivity|].
    left. rewrite Eb. cbn [String.eqb Ascii.eqb Bool.eqb].
    split; [reflexivity|]. split; reflexivity.
  - intros Ea. injection Ea as Ea.
    unfold selected_method, _generate_fingerprints, build.
    rewrite <- Ea. cbn [sparse_output fp_generator_kwargs result_vector_type].
    split; [reflexivity|]. split; [reflexivity|].
    right. rewrite Ec. cbn [String.eqb Ascii.eqb Bool.eqb].
    split; [reflexivity|]. split; reflexivity.
  - intros e Ee. injection Ee as <-. now repeat split.
Qed.

(** X8 on an object constructed with ["count"] and [sparse=True]: the
    rows of its matrix are the count vectors. *)
Lemma X8_vector_type_witness :
  let self := Demo.mk_Generated (mk_attributes "count" [] true) in
  FingerprintGeneratorMixin_init "count" true = OK (attributes self)
  /\ selected_method self = GetCountFingerprintAsNumPy (_get_generator self)
  /\ _generate_fingerprints self Demo.molecules
     = rbind (rmap (call_with_mol (fun m => Demo.counts m 8)) Demo.molecules)
             (build true)
  /\ exists M, _generate_fingerprints self Demo.molecules = OK M
               /\ row M 1 = Some (Demo.counts "CC" 8).
Proof.
  intros self.
  assert (E : FingerprintGeneratorMixin_init "count" true
              = OK (attributes self)) by reflexivity.
  split; [exact E|].
  destruct (proj2 (X8_vector_type self "count" true) E)
    as [_ [_ [[Eb _]|[_ [Em Eg]]]]]; [discriminate|].
  split; [exact Em|]. split; [exact (Eg Demo.molecules)|].
  eexists. split; [rewrite (Eg Demo.molecules); vm_compute; reflexivity|].
  vm_compute. reflexivity.
Defined.

Lemma generate_mols `{RDKit} {Self : Type}
  `{!FingerprintGeneratorMixin Self} (self : Self) (X : list pyobj) :
  X <> [] ->
  (forall x, In x X -> isinstance_Mol x = true) ->
  exists M,
    _generate_fingerprints self X = OK M /\ nrows M = Some (length X).
Proof.
  intros Hne Hmol.
  destruct (rmap_total (call_with_mol (selected_method self)) X)
    as [rows Erows].
  { intros x Hx. specialize (Hmol x Hx).
    destruct x as [o s|o m| |z]; try discriminate. now eexists. }
  exists (assemble (sparse_output (attributes self))
                   (fpSize (_get_generator self)) rows).
  split; [now apply generate_rows|].
  now rewrite nrows_assemble, (rmap_length _ _ _ Erows).
Qed.

(** X9. On a non-empty list of molecules [_generate_fingerprints]
    returns a matrix with one row per molecule, in order, and as many
    columns as the generator's vectors have entries; row [i] is the
    vector that the selected generator method gives for molecule [i];
    the matrix is a [csr_array] exactly when [sparse_output] is set. *)
Theorem X9_generate_rows `{RDKit} {Self : Type}
  `{!FingerprintGeneratorMixin Self} (self : Self) (X : list pyobj) :
  X <> [] ->
  (forall x, In x X -> isinstance_Mol x = true) ->
  exists M,
    _generate_fingerprints self X = OK M
    /\ nrows M = Some (length X)
    /\ ncols M = Some (fpSize (_get_generator self))
    /\ isinstance_csr_array M = sparse_output (attributes self)
    /\ forall i cls m, nth_error X i = Some (py_Mol cls m) ->
         row M i = Some (selected_method self m).
Proof.
  intros Hne Hmol.
  destruct (rmap_total (call_with_mol (selected_method self)) X)
    as [rows Erows].
  { intros x Hx. specialize (Hmol x Hx).
    destruct x as [o s|o m| |z]; try discriminate. now eexists. }
  exists (assemble (sparse_output (attributes self))
                   (fpSize (_get_generator self)) rows).
  split; [now apply generate_rows|].
  rewrite nrows_assemble, ncols_assemble, isinstance_assemble.
  split; [now rewrite (rmap_length _ _ _ Erows)|].
  split; [reflexivity|]. split; [reflexivity|].
  intros i cls m Hi.
  destruct (rmap_nth _ X rows i _ Erows Hi) as [r [Er Hr]].
  injection Er as <-.
  rewrite row_assemble; [exact Hr|].
  eapply rmap_Forall; [|exact Erows]. intros x r. apply selected_width.
Qed.

(** X9 on three molecules, bit vectors, dense. *)
Lemma X9_generate_rows_witness :
  let self := Demo.mk_Generated (mk_attributes "bit" [] false) in
  Demo.molecules <> []
  /\ (forall x, In x Demo.molecules -> isinstance_Mol x = true)
  /\ exists M,
       _generate_fingerprints self Demo.molecules = OK M
       /\ nrows M = Some 3%nat
       /\ ncols M = Some 8%nat
       /\ row M 2 = Some (Demo.bits "CC=O" 8).
Proof.
  intros self.
  assert (Hne : Demo.molecules <> []) by discriminate.
  assert (Hmol : forall x, In x Demo.molecules -> isinstance_Mol x = true).
  { intros x Hx.
    repeat (destruct Hx as [<-|Hx]; [reflexivity|]). destruct Hx. }
  split; [exact Hne|]. split; [exact Hmol|].
  destruct (X9_generate_rows self Demo.molecules Hne Hmol)
    as [M [EM [Hr [Hc [_ Hrow]]]]].
  exists M. split; [exact EM|]. split; [exact Hr|]. split; [exact Hc|].
  exact (Hrow 2%nat (Some "PropertyMol") "CC=O" eq_refl).
Defined.

(** X10. Chunking is invisible to [_generate_fingerprints]: for every
    batch size [b >= 1] and every non-empty input, running it on the
    consecutive chunks of [b] entries and aggregating the outputs as
    [transform] does gives exactly what one run on the whole input
    gives, the matrix or the exception. *)
Theorem X10_generate_over_chunks `{RDKit} {Self : Type}
  `{!FingerprintGeneratorMixin Self} (self : Self) (X : list pyobj)
  (b : nat) :
  (1 <= b)%nat ->
  X <> [] ->
  rbind (rmap (_generate_fingerprints self) (chunks b X)) aggregate
  = _generate_fingerprints self X.
Proof.
  intros Hb Hne.
  pose proof (generate_as_unit self) as R.
  set (T := Build_FingerprintTransformer _ unit (fun _ => 2)
              (fun _ => _generate_fingerprints self)) in R.
  pose proof (@units_on_chunks _ unit T tt _ _ _ R (chunks b X)) as Eu.
  cbn [_calculate_fingerprint T] in Eu.
  rewrite Eu
    by (intros c Hc Ec; apply (chunks_nonempty b X c Hb) in Hc;
        subst c; simpl in Hc; lia).
  pose proof (rmap_concat (call_with_mol (selected_method self))
                          (chunks b X)) as Ecat.
  rewrite (concat_chunks b X Hb) in Ecat.
  rewrite (generate_eq self X).
  destruct (rmap (rmap (call_with_mol (selected_method self))) (chunks b X))
    as [rss|e] eqn:E; cbn [rbind] in *.
  - rewrite Ecat. cbn [rbind].
    rewrite aggregate_assemble.
    + symmetry. apply build_assemble.
      * intros E0. apply rmap_length in Ecat. rewrite E0 in Ecat.
        destruct X; [congruence|discriminate].
      * eapply rmap_Forall; [|exact Ecat]. intros x r. apply selected_width.
    + intros ->. apply rmap_length in E. rewrite length_chunks in E.
      pose proof (num_chunks_pos (length X) b).
      destruct X; [congruence|simpl in *; lia].
  - now rewrite Ecat.
Qed.

(** X10 on three molecules in chunks of two. *)
Lemma X10_generate_over_chunks_witness :
  let self := Demo.mk_Generated (mk_attributes "count" [] true) in
  rbind (rmap (_generate_fingerprints self) (chunks 2 Demo.molecules))
        aggregate
  = _generate_fingerprints self Demo.molecules.
Proof.
  intros self.
  apply (X10_generate_over_chunks self Demo.molecules 2);
    [lia|discriminate].
Defined.

Lemma validated_list `{RDKit} (X : list pyobj) :
  (forall x, In x X -> isinstance_Mol x || type_eq_str x = true) ->
  exists Y,
    _validate_input X = OK Y
    /\ length Y = length X
    /\ ((forall s, In (py_str None s) X -> MolFromSmiles s <> None) ->
        forall y, In y Y -> isinstance_Mol y = true)
    /\ (forall s, In (py_str None s) X -> MolFromSmiles s = None ->
        In py_None Y).
Proof.
  intros Hall. rewrite (validate_accepts X Hall).
  eexists. split; [reflexivity|]. split; [apply length_map|]. split.
  - intros Hparse y Hy. apply in_map_iff in Hy as [x [<- Hx]].
    specialize (Hall x Hx).
    destruct x as [o s|o m| |z]; try discriminate; [|reflexivity].
    destruct o as [c|]; [discriminate|].
    specialize (Hparse s Hx). now destruct (MolFromSmiles s).
  - intros s Hs Hp. apply in_map_iff. exists (py_str None s).
    now rewrite Hp.
Qed.

(** X11. Validation followed by generation. For an input that passes
    the type test of [_validate_input] and is not empty: if every string
    parses, [_generate_fingerprints] on the validated list returns a
    matrix with one row per entry; if some string does not parse, the
    [None] that validation left in the list makes the generator raise
    an ArgumentError. *)
Theorem X11_validate_then_generate `{RDKit} {Self : Type}
  `{!FingerprintGeneratorMixin Self} (self : Self) (X : list pyobj) :
  X <> [] ->
  (forall x, In x X -> isinstance_Mol x || type_eq_str x = true) ->
  ((forall s, In (py_str None s) X -> MolFromSmiles s <> None) ->
   exists M,
     rbind (_validate_input X) (_generate_fingerprints self) = OK M
     /\ nrows M = Some (length X))
  /\ (forall s, In (py_str None s) X -> MolFromSmiles s = None ->
      rbind (_validate_input X) (_generate_fingerprints self)
      = Raise (ArgumentError
                 "Python argument types did not match C++ signature")).
Proof.
  intros Hne Hall.
  destruct (validated_list X Hall) as [Y [EY [HL [Hnn Hnone]]]].
  rewrite EY. cbn [rbind]. split.
  - intros Hparse.
    destruct (generate_mols self Y) as [M [EM Hr]].
    + intros ->. destruct X; [congruence|discriminate].
    + intros y Hy. now apply (Hnn Hparse).
    + exists M. split; [exact EM|]. now rewrite Hr, HL.
  - intros s Hs Hp. rewrite generate_eq.
    destruct (rmap_fails (call_with_mol (selected_method self)) Y py_None
                (ArgumentError
                   "Python argument types did not match C++ signature"))
      as [e Ee]; [now apply (Hnone s)|reflexivity|].
    rewrite Ee. cbn [rbind].
    destruct (rmap_Raise _ _ _ Ee) as [y [_ Ey]].
    now destruct (call_with_mol_error _ _ _ Ey) as [-> _].
Qed.

(** X11 on the four strings of the docstrings, and on an input with a
    string that does not parse. *)
Lemma X11_validate_then_generate_witness :
  let self := Demo.mk_Generated (mk_attributes "bit" [] false) in
  (exists M,
     rbind (_validate_input Demo.smiles) (_generate_fingerprints self) = OK M
     /\ nrows M = Some 4%nat)
  /\ rbind (_validate_input Demo.mixed) (_generate_fingerprints self)
     = Raise (ArgumentError
                "Python argument types did not match C++ signature").
Proof.
  intros self.
  assert (Hacc : forall X : list pyobj,
            forallb (fun x => isinstance_Mol x || type_eq_str x) X = true ->
            forall x, In x X -> isinstance_Mol x || type_eq_str x = true)
    by (intros X HX; now apply forallb_forall).
  split.
  - apply (proj1 (X11_validate_then_generate self Demo.smiles
                    ltac:(discriminate) (Hacc Demo.smiles eq_refl))).
    intros s Hs.
    repeat (destruct Hs as [[= <-]|Hs]; [discriminate|]). destruct Hs.
  - apply (proj2 (X11_validate_then_generate self Demo.mixed
                    ltac:(discriminate) (Hacc Demo.mixed eq_refl))
                 "not_a_valid_structure!!");
      [right; left; reflexivity|reflexivity].
Defined.

(** ** The files written by [plot_results] *)

Lemma length_append (s t : string) :
  String.length (s ++ t) = (String.length s + String.length t)%nat.
Proof. induction s as [|c s IH]; simpl; [reflexivity|now rewrite IH]. Qed.

Lemma length_replace_char (old new : ascii) (s : string) :
  String.length (replace_char old new s) = String.length s.
Proof. induction s as [|c s IH]; simpl; [reflexivity|now rewrite IH]. Qed.

Lemma replace_char_append (old new : ascii) (s t : string) :
  replace_char old new (s ++ t)
  = (replace_char old new s ++ replace_char old new t)%string.
Proof. induction s as [|c s IH]; simpl; [reflexivity|now rewrite IH]. Qed.

Lemma replace_char_idem (old new : ascii) (s : string) :
  old <> new ->
  replace_char old new (replace_char old new s) = replace_char old new s.
Proof.
  intros Hne. induction s as [|c s IH]; simpl; [reflexivity|].
  rewrite IH. f_equal.
  destruct (Ascii.eqb_spec c old) as [->|Hc].
  - destruct (Ascii.eqb_spec new old); congruence.
  - now destruct (Ascii.eqb_spec c old).
Qed.

Lemma replace_char_clears (old new : ascii) (s : string) :
  old <> new -> occurs old (replace_char old new s) = false.
Proof.
  intros Hne. induction s as [|c s IH]; simpl; [reflexivity|].
  rewrite IH, orb_false_r.
  destruct (Ascii.eqb_spec c old) as [->|Hc].
  - apply Ascii.eqb_neq. congruence.
  - now apply Ascii.eqb_neq.
Qed.

Lemma append_empty (s : string) : (s ++ "")%string = s.
Proof. induction s as [|c s IH]; simpl; [reflexivity|now rewrite IH]. Qed.

Lemma saved_file {Y : Type} (n_molecules : Z) (y_emf : list Y) (y_rdkit : Y)
  (title : string) (sparse count : option bool) (fname : string) :
  In (plt_savefig fname)
     (plot_results n_molecules y_emf y_rdkit title sparse count true) ->
  fname = (PLOT_DIR ++ "/"
           ++ replace_char " " "_" (full_title title sparse count)
           ++ ".png")%string.
Proof.
  unfold plot_results. intros Hin.
  assert (Et : (if truthy count
                then ((if truthy sparse then title ++ " sparse" else title)
                      ++ " count")%string
                else match count with
                     | Some _ => ((if truthy sparse then title ++ " sparse"
                                   else title) ++ " bit")%string
                     | None => if truthy sparse
                               then (title ++ " sparse")%string else title
                     end) = full_title title sparse count).
  { unfold full_title. destruct count as [[|]|]; cbn [truthy];
      try reflexivity. now rewrite append_empty. }
  rewrite Et in Hin.
  repeat (apply in_app_or in Hin as [Hin|Hin]).
  - repeat (destruct Hin as [Hin|Hin]; [discriminate|]). destruct Hin.
  - apply in_map_iff in Hin as [iy [Hiy _]]. discriminate.
  - repeat (destruct Hin as [Hin|Hin]; [discriminate|]). destruct Hin.
  - destruct Hin as [Hin|[]]. now injection Hin as <-.
Qed.

Lemma saved_file_in {Y : Type} (n_molecules : Z) (y_emf : list Y)
  (y_rdkit : Y) (title : string) (sparse count : option bool) :
  In (plt_savefig (PLOT_DIR ++ "/"
                   ++ replace_char " " "_" (full_title title sparse count)
                   ++ ".png")%string)
     (plot_results n_molecules y_emf y_rdkit title sparse count true).
Proof.
  unfold plot_results. apply in_or_app; right. apply in_or_app; right.
  apply in_or_app; right. left. do 3 f_equal.
  unfold full_title. destruct count as [[|]|]; cbn [truthy];
    try reflexivity. now rewrite append_empty.
Qed.

Lemma length_full_title (title : string) (sparse count : option bool) :
  String.length (full_title title sparse count)
  = (String.length title
     + (if truthy sparse then 7 else 0)
     + match count with Some true => 6 | Some false => 4 | None => 0 end)%nat.
Proof.
  unfold full_title. rewrite length_append.
  destruct (truthy sparse); [rewrite length_append|];
    destruct count as [[|]|]; simpl; lia.
Qed.

(** X12. For one title, the file a plot is saved to tells the variant:
    two saved plots of the same title go to the same file only if they
    agree on whether [sparse] is set and on [count] ([True], [False] or
    [None]). So plots of one title that differ in [sparse] or in
    [count] never overwrite each other. *)
Theorem X12_variants_have_distinct_files {Y : Type} (n1 n2 : Z)
  (y1 y2 : list Y) (r1 r2 : Y) (title : string)
  (sparse1 sparse2 count1 count2 : option bool) (fname : string) :
  In (plt_savefig fname)
     (plot_results n1 y1 r1 title sparse1 count1 true) ->
  In (plt_savefig fname)
     (plot_results n2 y2 r2 title sparse2 count2 true) ->
  truthy sparse1 = truthy sparse2 /\ count1 = count2.
Proof.
  intros H1 H2. apply saved_file in H1. apply saved_file in H2.
  rewrite H1 in H2. apply (f_equal String.length) in H2.
  rewrite !length_append, !length_replace_char, !length_full_title in H2.
  destruct (truthy sparse1), (truthy sparse2);
    destruct count1 as [[|]|], count2 as [[|]|];
    (split; [reflexivity || (exfalso; lia)|reflexivity || (exfalso; lia)]).
Qed.

(** X12 on two sparse bit-vector plots of one title. *)
Lemma X12_variants_have_distinct_files_witness :
  In (plt_savefig
        "./benchmark_times_plotted/Morgan_Fingerprint_sparse_bit.png")
     (plot_results 10 [1; 2] 3 "Morgan Fingerprint" (Some true) (Some false)
        true)
  /\ In (plt_savefig
           "./benchmark_times_plotted/Morgan_Fingerprint_sparse_bit.png")
        (plot_results 20 [4] 5 "Morgan Fingerprint" (Some true) (Some false)
           true)
  /\ truthy (Some true) = truthy (Some true)
  /\ Some false = Some false.
Proof.
  assert (H1 : In (plt_savefig
                     "./benchmark_times_plotted/Morgan_Fingerprint_sparse_bit.png")
                  (plot_results 10 [1; 2] 3 "Morgan Fingerprint" (Some true)
                     (Some false) true))
    by (vm_compute; do 12 right; left; reflexivity).
  assert (H2 : In (plt_savefig
                     "./benchmark_times_plotted/Morgan_Fingerprint_sparse_bit.png")
                  (plot_results 20 [4] 5 "Morgan Fingerprint" (Some true)
                     (Some false) true))
    by (vm_compute; do 11 right; left; reflexivity).
  split; [exact H1|]. split; [exact H2|].
  exact (X12_variants_have_distinct_files 10 20 [1; 2] [4] 3 5
           "Morgan Fingerprint" (Some true) (Some true) (Some false)
           (Some false) _ H1 H2).
Defined.

(** X13. A saved plot goes to
    ["./benchmark_times_plotted/" + name + ".png"] where [name] has no
    space in it; it is the final title with every space turned into an
    underscore. Hence a title and the same title with underscores for
    spaces are saved to one and the same file. With [save=False]
    nothing is saved. *)
Theorem X13_saved_file_name {Y : Type} (n_molecules : Z) (y_emf : list Y)
  (y_rdkit : Y) (title : string) (sparse count : option bool) :
  (forall fname,
     In (plt_savefig fname)
        (plot_results n_molecules y_emf y_rdkit title sparse count true) ->
     exists name,
       fname = (PLOT_DIR ++ "/" ++ name ++ ".png")%string
       /\ occurs " " name = false
       /\ In (ax_set_title (full_title title sparse count))
             (plot_results n_molecules y_emf y_rdkit title sparse count true)
       /\ name = replace_char " " "_" (full_title title sparse count)
       /\ In (plt_savefig fname)
             (plot_results n_molecules y_emf y_rdkit
                (replace_char " " "_" title) sparse count true))
  /\ (forall fname,
        ~ In (plt_savefig fname)
             (plot_results n_molecules y_emf y_rdkit title sparse count
                false)).
Proof.
  split.
  - intros fname Hin. apply saved_file in Hin. subst fname.
    eexists. split; [reflexivity|].
    split; [apply replace_char_clears; discriminate|].
    split.
    + unfold plot_results. apply in_or_app; left. do 3 right. left.
      f_equal. unfold full_title. destruct count as [[|]|]; cbn [truthy];
        try reflexivity. now rewrite append_empty.
    + split; [reflexivity|].
      replace (replace_char " " "_" (full_title title sparse count))
        with (replace_char " " "_"
                (full_title (replace_char " " "_" title) sparse count)).
      * apply saved_file_in.
      * unfold full_title.
        destruct (truthy sparse);
          rewrite !replace_char_append, replace_char_idem;
          reflexivity || discriminate.
  - intros fname Hin. unfold plot_results in Hin.
    repeat (apply in_app_or in Hin as [Hin|Hin]).
    + repeat (destruct Hin as [Hin|Hin]; [discriminate|]). destruct Hin.
    + apply in_map_iff in Hin as [iy [Hiy _]]. discriminate.
    + repeat (destruct Hin as [Hin|Hin]; [discriminate|]). destruct Hin.
    + destruct Hin as [Hin|[]]. discriminate.
Qed.

(** X13 on a title with two spaces. *)
Lemma X13_saved_file_name_witness :
  In (plt_savefig "./benchmark_times_plotted/MACCS_Keys_fingerprint.png")
     (plot_results 10 [1; 2] 3 "MACCS Keys fingerprint" (Some false) None
        true)
  /\ In (plt_savefig "./benchmark_times_plotted/MACCS_Keys_fingerprint.png")
        (plot_results 10 [1; 2] 3 "MACCS_Keys_fingerprint" (Some false) None
           true).
Proof.
  assert (Hin : In (plt_savefig
                      "./benchmark_times_plotted/MACCS_Keys_fingerprint.png")
                   (plot_results 10 [1; 2] 3 "MACCS Keys fingerprint"
                      (Some false) None true))
    by (vm_compute; do 12 right; left; reflexivity).
  split; [exact Hin|].
  destruct (proj1 (X13_saved_file_name 10 [1; 2] 3 "MACCS Keys fingerprint"
                     (Some false) None) _ Hin)
    as [name [_ [_ [_ [_ Hsame]]]]].
  exact Hsame.
Defined.
